(** * dymoapi: the token cache, the capability dispatcher and the response
    normaliser of [dymoapi/dymoapi.py], as a shallow embedding.

    The Python class [DymoAPI] is translated method by method into a state
    and exception monad over an explicit [world]: the two class attributes
    that form the process-wide token cache, the trace of network requests,
    the records written by [logging.error] and the lines written by [print].
    Everything the file imports from outside (the [requests] library, the
    pydantic validator, the capability handlers of [dymoapi.branches], the
    base-URL configuration) is a field of the [Remote] class, so every
    theorem holds for all servers and all library behaviours. *)

From stdpp Require Import gmap strings list fin_maps.
From Stdlib Require Import ZArith.

Set Warnings "-register-all,-clear-no-such-hyp".
Open Scope string_scope.

(** ** Python data *)

(** JSON payloads as Python holds them after [response.json()]: [None],
    booleans, numbers, strings, lists and dicts keyed by strings.  Numbers
    only matter through their truth value, so integers stand for them. *)
Inductive json :=
| JNull
| JBool (b : bool)
| JNum (z : Z)
| JStr (s : string)
| JList (l : list json)
| JDict (d : gmap string json).

(** Python truth value: [None], [False], zero, the empty string, the empty
    list and the empty dict are falsy. *)
Definition truthy (j : json) : bool :=
  match j with
  | JNull => false
  | JBool b => b
  | JNum z => negb (z =? 0)%Z
  | JStr s => match s with EmptyString => false | String _ _ => true end
  | JList l => match l with [] => false | _ :: _ => true end
  | JDict d => match size d with O => false | S _ => true end
  end.

(** An attribute read by [config.get(key, None)]: [None] or a string. *)
Definition str_truthy (s : option string) : bool :=
  match s with
  | None => false
  | Some EmptyString => false
  | Some (String _ _) => true
  end.

(** [f"{s}"] for a credential. *)
Definition format_str (s : option string) : string :=
  match s with
  | None => "None"
  | Some v => v
  end.

(** The exceptions that the modelled code can raise or meet. *)
Inductive exn :=
| RequestException (msg : string)
| AuthenticationError (msg : string)
| TypeError (msg : string)
| KeyError (key : string)
| AttributeError (msg : string)
| ValidationError (msg : string).

(** [str(e)], as interpolated in the log line of [initialize_tokens]. *)
Definition exn_str (e : exn) : string :=
  match e with
  | RequestException msg => msg
  | AuthenticationError msg => msg
  | TypeError msg => msg
  | KeyError key => "'" ++ key ++ "'"
  | AttributeError msg => msg
  | ValidationError msg => msg
  end.

Inductive outcome (A : Type) :=
| Return (a : A)
| Raise (e : exn).
Arguments Return {A} a.
Arguments Raise {A} e.

(** ** The world *)

(** What leaves the process.  [TokensPost] is the [requests.post] of
    [initialize_tokens]; [CapabilityCall] is one invocation of a handler of
    [dymoapi.branches]; [UpdateCheck] is [check_for_updates]. *)
Inductive request :=
| TokensPost (url : string) (body : json)
| CapabilityCall (module_name function_name : string)
    (key : option string) (args : json)
| UpdateCheck.

(** The answer of [requests.post]: the call raises a [RequestException], or
    returns a response with a status code, the message [raise_for_status]
    would attach to its [HTTPError], and the decoded JSON body. *)
Inductive http_result :=
| ConnFailed (msg : string)
| Responded (status : Z) (error_text : string) (body : json).

(** [tokens_response] and [tokens_verified] are the class attributes of
    [DymoAPI] (lines 12-13), one slot for the whole process. *)
Record world := World {
  tokens_response : json;
  tokens_verified : bool;
  net : list request;
  errlog : list string;
  stdout : list string
}.

(** The state of a fresh process: [tokens_response = None],
    [tokens_verified = False]. *)
Definition initial_world : world :=
  World JNull false [] [] [].

(** The classes of [response_models.py] that the client constructs. *)
Inductive model_class :=
| DataVerifierResponse
| SendEmailResponse
| SRNGResponse
| PrayerTimesResponse
| SatinizerResponse
| IsValidPwdResponse
| UrlEncryptResponse.

(** A constructed pydantic object: its class and its validated fields. *)
Record model_instance := Instance {
  cls : model_class;
  fields : gmap string json
}.

(** ** What lies outside the file *)

Class Remote := {
  (** [get_base_url()] after [set_base_url(local)] of [dymoapi.config]. *)
  get_base_url : bool -> string;
  (** [requests.post(url, json=body)], given the requests sent so far. *)
  requests_post : list request -> string -> json -> http_result;
  (** [getattr(import_module(".branches." + module), function)] applied to
      its arguments, given the requests sent so far: the raw payload of the
      capability, or the error it propagates. *)
  branch : list request -> string -> string -> option string -> json ->
           outcome (gmap string json);
  (** pydantic's validation of the keyword arguments of a model class. *)
  validate : model_class -> gmap string json -> outcome (gmap string json)
}.

(** ** State and exception monad *)

Definition M (A : Type) : Type := world -> outcome A * world.

#[global] Instance M_ret : MRet M := fun A a w => (Return a, w).

#[global] Instance M_bind : MBind M := fun A B f m w =>
  match m w with
  | (Return a, w') => f a w'
  | (Raise e, w') => (Raise e, w')
  end.

Definition raise {A : Type} (e : exn) : M A := fun w => (Raise e, w).

(** [try: body  except ...: handler]; what the body did to the world before
    it raised stays done. *)
Definition try_except {A : Type} (body : M A) (handler : exn -> M A) : M A :=
  fun w =>
    match body w with
    | (Return a, w') => (Return a, w')
    | (Raise e, w') => handler e w'
    end.

(** The world with one more record at error level. *)
Definition logged (msg : string) (w : world) : world :=
  World (tokens_response w) (tokens_verified w) (net w)
        (errlog w ++ [msg]) (stdout w).

(** The world with one more line on standard output. *)
Definition printed (msg : string) (w : world) : world :=
  World (tokens_response w) (tokens_verified w) (net w)
        (errlog w) (stdout w ++ [msg]).

(** The world with one more request sent. *)
Definition send (r : request) (w : world) : world :=
  World (tokens_response w) (tokens_verified w) (net w ++ [r])
        (errlog w) (stdout w).

(** [logging.error(msg)]; returns [None]. *)
Definition logging_error (msg : string) : M unit := fun w =>
  (Return tt, logged msg w).

(** [print(msg)]; returns [None]. *)
Definition print (msg : string) : M unit := fun w =>
  (Return tt, printed msg w).

Definition get_cache : M (json * bool) := fun w =>
  (Return (tokens_response w, tokens_verified w), w).

(** [DymoAPI.tokens_response = data]. *)
Definition set_tokens_response (data : json) : M unit := fun w =>
  (Return tt,
   World data (tokens_verified w) (net w) (errlog w) (stdout w)).

(** [DymoAPI.tokens_verified = b]. *)
Definition set_tokens_verified (b : bool) : M unit := fun w =>
  (Return tt,
   World (tokens_response w) b (net w) (errlog w) (stdout w)).

(** ** Python operations on JSON values *)

(** [obj.get(key)]: only a dict has the method. *)
Definition py_get (obj : json) (key : string) : M json :=
  match obj with
  | JDict d => mret (default JNull (d !! key))
  | _ => raise (AttributeError "object has no attribute 'get'")
  end.

(** [obj[key]] *)
Definition py_getitem (obj : json) (key : string) : M json :=
  match obj with
  | JDict d =>
      match d !! key with
      | Some v => mret v
      | None => raise (KeyError key)
      end
  | _ => raise (TypeError "object is not subscriptable")
  end.

(** [obj[key] = value], giving the object after the assignment. *)
Definition py_setitem (obj : json) (key : string) (value : json) : M json :=
  match obj with
  | JDict d => mret (JDict (<[key := value]> d))
  | _ => raise (TypeError "object does not support item assignment")
  end.

(** [obj.pop(key)], giving the object after the removal. *)
Definition py_pop (obj : json) (key : string) : M json :=
  match obj with
  | JDict d =>
      match d !! key with
      | Some _ => mret (JDict (delete key d))
      | None => raise (KeyError key)
      end
  | _ => raise (AttributeError "object has no attribute 'pop'")
  end.

(** A statement [response["ip"]... ] that mutates the dict stored under
    ["ip"] in place: the object is read from [response], changed, and is
    still the one [response] holds. *)
Definition on_ip (response : gmap string json) (f : json -> M json)
  : M (gmap string json) :=
  ip ← py_getitem (JDict response) "ip";
  ip' ← f ip;
  mret (<["ip" := ip']> response).

(** ** The client *)

(** The [config] dict of [__init__], read with [config.get(key, default)]. *)
Record config := Config {
  cfg_root_api_key : option string;
  cfg_api_key : option string;
  cfg_server_email_config : json;
  cfg_local : bool
}.

(** The instance attributes set by [__init__]. *)
Record client := Client {
  root_api_key : option string;
  api_key : option string;
  server_email_config : json;
  local : bool;
  base_url : string
}.

(** What a call of [_get_function] evaluates to when it is not [None]:
    [lambda *args, **kwargs: DotDict(func(...))].  Modelled from the spec:
    [DotDict] of [dymoapi.utils.basics], missing from the sources, is a dict
    that can also be read by attribute; the model keeps the dict. *)
Definition handler : Type := json -> M (gmap string json).

(** Calling the value returned by [_get_function]; [None] is not callable. *)
Definition py_call (f : option handler) (args : json)
  : M (gmap string json) :=
  match f with
  | Some h => h args
  | None => raise (TypeError "'NoneType' object is not callable")
  end.

Section Client.
Context `{Remote}.

(** [requests.post(url, json=body)] *)
Definition post (url : string) (body : json) : M (Z * string * json) :=
  fun w =>
    match requests_post (net w) url body with
    | ConnFailed msg => (Raise (RequestException msg), send (TokensPost url body) w)
    | Responded status text data =>
        (Return (status, text, data), send (TokensPost url body) w)
    end.

(** [response.raise_for_status()]: requests raises [HTTPError], a
    [RequestException], for the 4xx and 5xx codes. *)
Definition raise_for_status (response : Z * string * json) : M unit :=
  let '(status, text, _) := response in
  if ((400 <=? status) && (status <? 600))%Z
  then raise (RequestException text)
  else mret tt.

(** Modelled from the spec: the handlers of [dymoapi.branches], missing from
    the sources.  A handler builds the wire request of its capability, sends
    it and returns the raw payload, or propagates the failure. *)
Definition branch_call (module_name function_name : string)
  (key : option string) (args : json) : M (gmap string json) :=
  fun w =>
    (branch (net w) module_name function_name key args,
     send (CapabilityCall module_name function_name key args) w).

(** Modelled from the spec: [check_for_updates] of
    [dymoapi.services.autoupload], missing from the sources; a best-effort
    call to a remote source whose failures are ignored. *)
Definition check_for_updates : M unit :=
  fun w => (Return tt, send UpdateCheck w).

(** A model class called on the unpacked payload. *)
Definition construct (c : model_class) (kwargs : gmap string json)
  : M model_instance :=
  fun w =>
    match validate c kwargs with
    | Return fs => (Return (Instance c fs), w)
    | Raise e => (Raise e, w)
    end.

(** Lines 48-52. *)
Definition _get_function (self : client) (module_name function_name : string)
  : M (option handler) :=
  if (module_name =? "private")%string
     && (match api_key self with None => true | Some _ => false end)
  then logging_error "Invalid private token.";; mret None
  else
    if (module_name =? "private")%string
    then mret (Some (branch_call module_name function_name (api_key self)))
    else mret (Some (branch_call module_name function_name None)).

(** Lines 56-58: the map of the credentials that are set. *)
Definition build_tokens (self : client) : gmap string json :=
  let tokens : gmap string json := ∅ in
  let tokens :=
    if str_truthy (root_api_key self)
    then <["root" := JStr ("Bearer " ++ format_str (root_api_key self))]> tokens
    else tokens in
  let tokens :=
    if str_truthy (api_key self)
    then <["private" := JStr ("Bearer " ++ format_str (api_key self))]> tokens
    else tokens in
  tokens.

(** Lines 63-70: the body of the [try]. *)
Definition verify_tokens (self : client) (tokens : gmap string json)
  : M unit :=
  response ← post (base_url self ++ "/v1/dvr/tokens")
                  (JDict {["tokens" := JDict tokens]});
  raise_for_status response;;
  let data := response.2 in
  (if str_truthy (root_api_key self)
   then confirmed ← py_get data "root";
        if negb (truthy confirmed)
        then raise (AuthenticationError "Invalid root token.")
        else mret tt
   else mret tt);;
  (if str_truthy (api_key self)
   then confirmed ← py_get data "private";
        if negb (truthy confirmed)
        then raise (AuthenticationError "Invalid private token.")
        else mret tt
   else mret tt);;
  set_tokens_response data;;
  set_tokens_verified true;;
  print "[Dymo API] Tokens initialized successfully.".

(** Lines 71-72: the [except] clause. *)
Definition token_error_handler (e : exn) : M unit :=
  match e with
  | RequestException _ | AuthenticationError _ =>
      logging_error ("Token validation error: " ++ exn_str e)
  | _ => raise e
  end.

(** Lines 54-72. *)
Definition initialize_tokens (self : client) : M unit :=
  '(cached, verified) ← get_cache;
  if truthy cached && verified
  then print "[Dymo API] Using cached tokens response."
  else
    let tokens := build_tokens self in
    if negb (truthy (JDict tokens))
    then mret tt
    else try_except (verify_tokens self tokens) token_error_handler.

(** Lines 38-46. *)
Definition __init__ (cfg : config) : M client :=
  let self :=
    Client (cfg_root_api_key cfg) (cfg_api_key cfg)
           (cfg_server_email_config cfg) (cfg_local cfg)
           (get_base_url (cfg_local cfg)) in
  check_for_updates;;
  (if str_truthy (api_key self) then initialize_tokens self else mret tt);;
  mret self.

(** Lines 100-104: the renaming of the keys that collide with Python
    keywords. *)
Definition rename_ip_keys (response : gmap string json)
  : M (gmap string json) :=
  found ← py_get (default (JDict ∅) (response !! "ip")) "as";
  if truthy found
  then
    response ← on_ip response (fun ip =>
      v ← py_getitem ip "as"; py_setitem ip "_as" v);
    response ← on_ip response (fun ip =>
      v ← py_getitem ip "class"; py_setitem ip "_class" v);
    response ← on_ip response (fun ip => py_pop ip "as");
    on_ip response (fun ip => py_pop ip "class")
  else mret response.

(** Lines 99-105. *)
Definition is_valid_data (self : client) (data : json) : M model_instance :=
  f ← _get_function self "private" "is_valid_data";
  response ← py_call f data;
  response ← rename_ip_keys response;
  construct DataVerifierResponse response.

(** Lines 140-141; [None] is the value of the early [return]. *)
Definition send_email (self : client) (data : gmap string json)
  : M (option model_instance) :=
  if negb (truthy (server_email_config self))
     && negb (str_truthy (root_api_key self))
  then logging_error "You must configure the email client settings.";;
       mret None
  else
    f ← _get_function self "private" "send_email";
    response ← py_call f
      (JDict (<["serverEmailConfig" := server_email_config self]> data));
    result ← construct DataVerifierResponse response;
    mret (Some result).

(** Line 166. *)
Definition get_random (self : client) (data : gmap string json)
  : M model_instance :=
  f ← _get_function self "private" "get_random";
  response ← py_call f (JDict data);
  construct DataVerifierResponse response.

(** Line 192. *)
Definition get_prayer_times (self : client) (data : json) : M model_instance :=
  f ← _get_function self "public" "get_prayer_times";
  response ← py_call f data;
  construct PrayerTimesResponse response.

(** Line 212. *)
Definition satinizer (self : client) (data : json) : M model_instance :=
  f ← _get_function self "public" "satinizer";
  response ← py_call f data;
  construct SatinizerResponse response.

(** Line 247. *)
Definition is_valid_pwd (self : client) (data : json) : M model_instance :=
  f ← _get_function self "public" "is_valid_pwd";
  response ← py_call f data;
  construct IsValidPwdResponse response.

(** Line 250. *)
Definition new_url_encrypt (self : client) (data : json) : M model_instance :=
  f ← _get_function self "public" "new_url_encrypt";
  response ← py_call f data;
  construct UrlEncryptResponse response.

End Client.

(** ** Processes *)

(** The operations a program can perform on the class. *)
Inductive op :=
| OpInit (cfg : config)
| OpInitializeTokens (self : client)
| OpIsValidData (self : client) (data : json)
| OpSendEmail (self : client) (data : gmap string json)
| OpGetRandom (self : client) (data : gmap string json)
| OpGetPrayerTimes (self : client) (data : json)
| OpSatinizer (self : client) (data : json)
| OpIsValidPwd (self : client) (data : json)
| OpNewUrlEncrypt (self : client) (data : json).

Section Process.
Context `{Remote}.

(** The world after an operation, whether it returned or raised. *)
Definition run_op (o : op) (w : world) : world :=
  match o with
  | OpInit cfg => (__init__ cfg w).2
  | OpInitializeTokens self => (initialize_tokens self w).2
  | OpIsValidData self data => (is_valid_data self data w).2
  | OpSendEmail self data => (send_email self data w).2
  | OpGetRandom self data => (get_random self data w).2
  | OpGetPrayerTimes self data => (get_prayer_times self data w).2
  | OpSatinizer self data => (satinizer self data w).2
  | OpIsValidPwd self data => (is_valid_pwd self data w).2
  | OpNewUrlEncrypt self data => (new_url_encrypt self data w).2
  end.

(** [steps w w']: the process can go from [w] to [w']. *)
Inductive steps : world -> world -> Prop :=
| steps_refl w : steps w w
| steps_op w w' o : steps w w' -> steps w (run_op o w').

(** The worlds a process can be in. *)
Definition reachable (w : world) : Prop := steps initial_world w.

(** The instance [__init__] builds from a configuration. *)
Definition client_of (cfg : config) : client :=
  Client (cfg_root_api_key cfg) (cfg_api_key cfg)
         (cfg_server_email_config cfg) (cfg_local cfg)
         (get_base_url (cfg_local cfg)).

End Process.

(** The verification request of a client: line 63. *)
Definition tokens_url (self : client) : string :=
  base_url self ++ "/v1/dvr/tokens".

Definition tokens_body (self : client) : json :=
  JDict {["tokens" := JDict (build_tokens self)]}.

Definition tokens_request (self : client) : request :=
  TokensPost (tokens_url self) (tokens_body self).

(** The condition of line 55. *)
Definition cached (w : world) : bool :=
  truthy (tokens_response w) && tokens_verified w.

(** A client that has a credential to verify: line 60 does not return. *)
Definition has_tokens (self : client) : bool :=
  truthy (JDict (build_tokens self)).

Definition is_tokens_post (r : request) : bool :=
  match r with
  | TokensPost _ _ => true
  | _ => false
  end.

(** The verification calls a process has made. *)
Definition verification_calls (w : world) : list request :=
  List.filter is_tokens_post (net w).

Definition in_range (lo hi status : Z) : bool :=
  ((lo <=? status) && (status <? hi))%Z.

(** The ways a verification can fail, with the exception met on each. *)
Inductive verification_failure (self : client) : http_result -> exn -> Prop :=
| network_error msg :
    verification_failure self (ConnFailed msg) (RequestException msg)
| status_error status text body :
    in_range 400 600 status = true ->
    verification_failure self (Responded status text body)
      (RequestException text)
| root_rejected status text d :
    in_range 400 600 status = false ->
    str_truthy (root_api_key self) = true ->
    truthy (default JNull (d !! "root")) = false ->
    verification_failure self (Responded status text (JDict d))
      (AuthenticationError "Invalid root token.")
| api_rejected status text d :
    in_range 400 600 status = false ->
    (str_truthy (root_api_key self) = true ->
     truthy (default JNull (d !! "root")) = true) ->
    str_truthy (api_key self) = true ->
    truthy (default JNull (d !! "private")) = false ->
    verification_failure self (Responded status text (JDict d))
      (AuthenticationError "Invalid private token.").

(** The server confirms every credential the client holds. *)
Definition confirms (self : client) (d : gmap string json) : Prop :=
  (str_truthy (root_api_key self) = true ->
   truthy (default JNull (d !! "root")) = true) /\
  (str_truthy (api_key self) = true ->
   truthy (default JNull (d !! "private")) = true).

(** The invariant of the cache: a verdict is never cached without its
    record. *)
Definition cache_inv (w : world) : Prop :=
  tokens_verified w = true -> truthy (tokens_response w) = true.

(** [w'] has the token cache and the verification calls of [w]. *)
Definition same_cache (w w' : world) : Prop :=
  tokens_response w' = tokens_response w /\
  tokens_verified w' = tokens_verified w /\
  verification_calls w' = verification_calls w.

(** [m] leaves the token cache as it found it and verifies nothing. *)
Definition keeps_cache {A : Type} (m : M A) : Prop :=
  forall w, same_cache w (m w).2.

(** ** Sample remotes *)

(** A remote that answers every verification with [post_answer] and every
    capability with [payload]; pydantic keeps the payload as it is. *)
Definition sample_remote (post_answer : http_result)
  (payload : outcome (gmap string json)) : Remote := {|
  get_base_url := fun local =>
    if local then "http://localhost:3050" else "https://api.tpeoficial.com";
  requests_post := fun _ _ _ => post_answer;
  branch := fun _ _ _ _ _ => payload;
  validate := fun _ kwargs => Return kwargs
|}.

Definition confirm_all : http_result :=
  Responded 200 "" (JDict {["root" := JBool true; "private" := JBool true]}).

Definition reject_private : http_result :=
  Responded 200 "" (JDict {["root" := JBool true; "private" := JBool false]}).

Definition no_payload : outcome (gmap string json) := Return ∅.

Definition alice : config :=
  Config (Some "root-a") (Some "key-a") JNull false.

Definition bob : config :=
  Config None (Some "key-b") JNull false.

Definition anonymous : config :=
  Config None None JNull false.

(** An IP lookup of a private address: the autonomous system is empty. *)
Definition private_ip_lookup : gmap string json :=
  {["ip" := JDict {["valid" := JBool true; "as" := JStr "";
                    "class" := JStr "C"; "ip" := JStr "192.168.100.1"]}]}.

(** An IP lookup of a public address. *)
Definition public_ip_lookup : gmap string json :=
  {["ip" := JDict {["valid" := JBool true; "as" := JStr "AS15169 Google LLC";
                    "class" := JStr "A"; "ip" := JStr "8.8.8.8"]}]}.

(** An IP lookup whose answer has no class. *)
Definition classless_ip_lookup : gmap string json :=
  {["ip" := JDict {["valid" := JBool true;
                    "as" := JStr "AS15169 Google LLC"]}]}.

(** The payload of the random-number capability. *)
Definition random_payload : gmap string json :=
  {["values" := JList [JDict {["integer" := JNum 7]}];
    "executionTime" := JNum 3]}.

(** The payload of the email capability. *)
Definition email_payload : gmap string json :=
  {["status" := JBool true]}.

Definition mailer : config :=
  Config None (Some "key-m") (JDict {["host" := JStr "smtp.example.com"]}) false.

Definition keyless_mailer : config :=
  Config None None (JDict {["host" := JStr "smtp.example.com"]}) false.

(** What the claim on the renaming promises of the dict under ["ip"]. *)
Definition renamed_as_claimed (ip result : gmap string json) : Prop :=
  result !! "_as" = ip !! "as" /\ result !! "_class" = ip !! "class"
  /\ result !! "as" = None /\ result !! "class" = None.

(** ** Notions for the further properties *)

(** The world [w] with another content of the token cache. *)
Definition with_cache (r : json) (v : bool) (w : world) : world :=
  World r v (net w) (errlog w) (stdout w).

(** [m] does not read the token cache: run on another cache it has the
    same outcome and does the same to the rest of the world. *)
Definition cache_blind {A : Type} (m : M A) : Prop :=
  forall r v w, m (with_cache r v w) = ((m w).1, with_cache r v (m w).2).

(** The two class attributes go together: nothing is cached, or the verdict
    is cached with a JSON object that confirms a credential, after at least
    one verification call. *)
Definition cache_shape (w : world) : Prop :=
  (tokens_response w = JNull /\ tokens_verified w = false)
  \/ (tokens_verified w = true /\
      verification_calls w <> [] /\
      exists d, tokens_response w = JDict d /\
        truthy (default JNull (d !! "root"))
        || truthy (default JNull (d !! "private")) = true).

(** The operations that are capability calls. *)
Definition is_capability (o : op) : bool :=
  match o with
  | OpInit _ | OpInitializeTokens _ => false
  | _ => true
  end.

(** The verification request an operation makes on an unfilled cache:
    that of the client for a construction with a truthy API key and for a
    call of [initialize_tokens] by a client that holds a credential, none
    for any other operation. *)
Definition verification_of `{Remote} (o : op) : list request :=
  match o with
  | OpInit cfg =>
      if str_truthy (cfg_api_key cfg)
      then [tokens_request (client_of cfg)] else []
  | OpInitializeTokens self =>
      if has_tokens self then [tokens_request self] else []
  | _ => []
  end.


(** An accepted answer whose body is a JSON list. *)
Definition list_answer : http_result :=
  Responded 200 "" (JList []).

(** A payload whose IP verdict is [null]. *)
Definition null_ip_lookup : gmap string json :=
  {["email" := JDict {["valid" := JBool true]}; "ip" := JNull]}.

(** A configuration whose API key is the empty string. *)
Definition empty_key : config :=
  Config None (Some "") JNull false.

(** * Properties *)

Ltac run_monad :=
  cbv [mbind M_bind mret M_ret get_cache raise try_except logging_error print
       set_tokens_response set_tokens_verified token_error_handler
       py_get py_call construct fst snd].

(** ** Operations that leave the token cache alone *)

Lemma same_cache_refl w : same_cache w w.
Proof. repeat split. Qed.

Lemma same_cache_trans w1 w2 w3 :
  same_cache w1 w2 -> same_cache w2 w3 -> same_cache w1 w3.
Proof.
  intros (H1 & H2 & H3) (H4 & H5 & H6). repeat split; congruence.
Qed.

Lemma same_cache_send r w :
  is_tokens_post r = false -> same_cache w (send r w).
Proof.
  intros Hr. repeat split. unfold verification_calls. simpl.
  rewrite List.filter_app. simpl. rewrite Hr. apply app_nil_r.
Qed.

Lemma keeps_cache_ret {A : Type} (a : A) : keeps_cache (mret a).
Proof. intros w. apply same_cache_refl. Qed.

Lemma keeps_cache_raise {A : Type} (e : exn) : keeps_cache (@raise A e).
Proof. intros w. apply same_cache_refl. Qed.

Lemma keeps_cache_bind {A B : Type} (m : M A) (f : A -> M B) :
  keeps_cache m -> (forall a, keeps_cache (f a)) -> keeps_cache (m ≫= f).
Proof.
  intros Hm Hf w. specialize (Hm w). cbv [mbind M_bind].
  destruct (m w) as [[a | e] w1]; simpl in *.
  - exact (same_cache_trans _ _ _ Hm (Hf a w1)).
  - exact Hm.
Qed.

Lemma keeps_cache_logging_error msg : keeps_cache (logging_error msg).
Proof. intros w. repeat split. Qed.

Lemma keeps_cache_py_get obj key : keeps_cache (py_get obj key).
Proof. intros w. destruct obj; apply same_cache_refl. Qed.

Lemma keeps_cache_py_getitem obj key : keeps_cache (py_getitem obj key).
Proof.
  intros w. destruct obj as [| | | | |d]; try (apply same_cache_refl).
  simpl. destruct (d !! key); apply same_cache_refl.
Qed.

Lemma keeps_cache_py_setitem obj key v : keeps_cache (py_setitem obj key v).
Proof. intros w. destruct obj; apply same_cache_refl. Qed.

Lemma keeps_cache_py_pop obj key : keeps_cache (py_pop obj key).
Proof.
  intros w. destruct obj as [| | | | |d]; try (apply same_cache_refl).
  simpl. destruct (d !! key); apply same_cache_refl.
Qed.

Create HintDb cache discriminated.
#[global] Hint Resolve keeps_cache_ret keeps_cache_raise
  keeps_cache_logging_error keeps_cache_py_get keeps_cache_py_getitem
  keeps_cache_py_setitem keeps_cache_py_pop : cache.

Ltac keeps_cache_tac :=
  repeat first
    [ progress auto with cache
    | apply keeps_cache_bind; [ | intros ? ]
    | match goal with
      | |- keeps_cache (if ?b then _ else _) => destruct b
      | |- keeps_cache (match ?x with _ => _ end) => destruct x
      end ].

Lemma keeps_cache_on_ip response f :
  (forall ip, keeps_cache (f ip)) -> keeps_cache (on_ip response f).
Proof. intros Hf. unfold on_ip. keeps_cache_tac. Qed.

Section CacheFrame.
Context `{Remote}.

Lemma keeps_cache_branch_call m f key args :
  keeps_cache (branch_call m f key args).
Proof. intros w. apply same_cache_send. reflexivity. Qed.

Lemma keeps_cache_construct c kwargs : keeps_cache (construct c kwargs).
Proof.
  intros w. unfold construct. destruct (validate c kwargs); apply same_cache_refl.
Qed.

Lemma keeps_cache_check_for_updates : keeps_cache check_for_updates.
Proof. intros w. apply same_cache_send. reflexivity. Qed.

Lemma keeps_cache_py_call f args :
  (forall h, f = Some h -> forall a, keeps_cache (h a)) ->
  keeps_cache (py_call f args).
Proof.
  intros Hf. destruct f as [h|]; simpl.
  - apply (Hf h eq_refl).
  - apply keeps_cache_raise.
Qed.

(** Whatever [_get_function] returns is a handler that leaves the cache
    alone; it is the only way the methods obtain one. *)
Lemma keeps_cache_dispatch {A : Type} self m fn args (k : gmap string json -> M A) :
  (forall r, keeps_cache (k r)) ->
  keeps_cache (f ← _get_function self m fn; response ← py_call f args; k response).
Proof.
  intros Hk. unfold _get_function.
  destruct ((m =? "private")%string
            && match api_key self with None => true | Some _ => false end).
  - intros w. repeat split.
  - destruct (m =? "private")%string.
    + intros w. cbv [mbind M_bind mret M_ret py_call].
      apply (keeps_cache_bind (branch_call m fn (api_key self) args) k);
        [apply keeps_cache_branch_call | exact Hk].
    + intros w. cbv [mbind M_bind mret M_ret py_call].
      apply (keeps_cache_bind (branch_call m fn None args) k);
        [apply keeps_cache_branch_call | exact Hk].
Qed.

Lemma keeps_cache_rename_ip_keys response :
  keeps_cache (rename_ip_keys response).
Proof.
  unfold rename_ip_keys.
  apply keeps_cache_bind; [apply keeps_cache_py_get | intros found].
  destruct (truthy found); [ | apply keeps_cache_ret ].
  repeat (apply keeps_cache_bind;
          [ apply keeps_cache_on_ip; intros ip; keeps_cache_tac | intros ? ]).
  apply keeps_cache_on_ip; intros ip; keeps_cache_tac.
Qed.

Lemma keeps_cache_is_valid_data self data :
  keeps_cache (is_valid_data self data).
Proof.
  unfold is_valid_data. apply keeps_cache_dispatch. intros r.
  apply keeps_cache_bind;
    [apply keeps_cache_rename_ip_keys | intros; apply keeps_cache_construct].
Qed.

Lemma keeps_cache_send_email self data : keeps_cache (send_email self data).
Proof.
  unfold send_email.
  destruct (negb (truthy (server_email_config self))
            && negb (str_truthy (root_api_key self))).
  - intros w. repeat split.
  - apply keeps_cache_dispatch. intros r.
    apply keeps_cache_bind;
      [apply keeps_cache_construct | intros; apply keeps_cache_ret].
Qed.

Lemma keeps_cache_get_random self data : keeps_cache (get_random self data).
Proof.
  unfold get_random. apply keeps_cache_dispatch.
  intros r. apply keeps_cache_construct.
Qed.

Lemma keeps_cache_public self fn c data :
  keeps_cache (f ← _get_function self "public" fn;
               response ← py_call f data;
               construct c response).
Proof. apply keeps_cache_dispatch. intros r. apply keeps_cache_construct. Qed.

End CacheFrame.

(** ** The paths of [initialize_tokens] *)

Lemma has_tokens_iff self :
  has_tokens self = true <->
  str_truthy (root_api_key self) = true \/ str_truthy (api_key self) = true.
Proof.
  unfold has_tokens, build_tokens.
  destruct (str_truthy (root_api_key self)), (str_truthy (api_key self));
    split; intros Hx; auto; try reflexivity;
    try (vm_compute in Hx; discriminate); destruct Hx; discriminate.
Qed.

Lemma truthy_lookup (d : gmap string json) key :
  truthy (default JNull (d !! key)) = true -> truthy (JDict d) = true.
Proof.
  intros Hk. destruct (d !! key) as [v|] eqn:Hd; [ | discriminate ].
  simpl. destruct (size d) eqn:Hs; [ | reflexivity ].
  apply map_size_empty_iff in Hs. subst d.
  rewrite lookup_empty in Hd. discriminate.
Qed.

Lemma confirms_truthy self d :
  has_tokens self = true -> confirms self d -> truthy (JDict d) = true.
Proof.
  intros Ht [Hroot Hapi]. apply has_tokens_iff in Ht as [Hr | Ha].
  - apply (truthy_lookup d "root"). auto.
  - apply (truthy_lookup d "private"). auto.
Qed.

Section Paths.
Context `{Remote}.

Lemma initialize_tokens_cached self w :
  cached w = true ->
  initialize_tokens self w
  = (Return tt, printed "[Dymo API] Using cached tokens response." w).
Proof.
  unfold cached, initialize_tokens. intros Hc.
  run_monad. rewrite Hc. reflexivity.
Qed.

Lemma initialize_tokens_no_tokens self w :
  cached w = false -> has_tokens self = false ->
  initialize_tokens self w = (Return tt, w).
Proof.
  unfold cached, has_tokens, initialize_tokens. intros Hc Ht.
  run_monad. rewrite Hc, Ht. reflexivity.
Qed.

Lemma initialize_tokens_attempt self w :
  cached w = false -> has_tokens self = true ->
  initialize_tokens self w
  = try_except (verify_tokens self (build_tokens self)) token_error_handler w.
Proof.
  unfold cached, has_tokens, initialize_tokens. intros Hc Ht.
  cbv [mbind M_bind get_cache]. rewrite Hc, Ht. reflexivity.
Qed.

Ltac open_attempt :=
  unfold verify_tokens, post, raise_for_status; run_monad;
  match goal with
  | |- context [base_url ?self ++ "/v1/dvr/tokens"] =>
      fold (tokens_url self); fold (tokens_body self);
      fold (tokens_request self)
  end.

Lemma initialize_tokens_failure self w e :
  cached w = false -> has_tokens self = true ->
  verification_failure self
    (requests_post (net w) (tokens_url self) (tokens_body self)) e ->
  initialize_tokens self w
  = (Return tt,
     logged ("Token validation error: " ++ exn_str e)
            (send (tokens_request self) w)).
Proof.
  intros Hc Ht Hf. rewrite initialize_tokens_attempt by assumption.
  open_attempt.
  remember (requests_post (net w) (tokens_url self) (tokens_body self)) as r.
  destruct Hf as [msg | st txt body Hs | st txt d Hs Hroot Hd
                 | st txt d Hs Hroot Hapi Hd]; try unfold in_range in Hs.
  - reflexivity.
  - rewrite Hs. reflexivity.
  - rewrite Hs, Hroot, Hd. reflexivity.
  - rewrite Hs, Hapi.
    destruct (str_truthy (root_api_key self)).
    + rewrite Hroot by reflexivity. rewrite Hd. reflexivity.
    + rewrite Hd. reflexivity.
Qed.

Lemma initialize_tokens_success self w status text d :
  cached w = false -> has_tokens self = true ->
  requests_post (net w) (tokens_url self) (tokens_body self)
  = Responded status text (JDict d) ->
  in_range 400 600 status = false ->
  confirms self d ->
  initialize_tokens self w
  = (Return tt,
     printed "[Dymo API] Tokens initialized successfully."
       (World (JDict d) true (net w ++ [tokens_request self])
              (errlog w) (stdout w))).
Proof.
  intros Hc Ht Hr Hs [Hroot Hapi].
  rewrite initialize_tokens_attempt by assumption. open_attempt.
  rewrite Hr. unfold in_range in Hs. rewrite Hs.
  destruct (str_truthy (root_api_key self)), (str_truthy (api_key self));
    rewrite ?Hroot, ?Hapi by reflexivity; reflexivity.
Qed.

(** A body that is not a JSON object has no [get]: the [AttributeError] is
    not among the exceptions of line 71 and leaves [initialize_tokens]. *)
Lemma initialize_tokens_malformed self w status text body :
  cached w = false -> has_tokens self = true ->
  requests_post (net w) (tokens_url self) (tokens_body self)
  = Responded status text body ->
  in_range 400 600 status = false ->
  (forall d, body <> JDict d) ->
  initialize_tokens self w
  = (Raise (AttributeError "object has no attribute 'get'"),
     send (tokens_request self) w).
Proof.
  intros Hc Ht Hr Hs Hb.
  rewrite initialize_tokens_attempt by assumption. open_attempt.
  rewrite Hr. unfold in_range in Hs. rewrite Hs.
  apply has_tokens_iff in Ht.
  destruct body as [| | | | |d]; try solve [
    destruct (str_truthy (root_api_key self)); [reflexivity|];
    destruct (str_truthy (api_key self)); [reflexivity|];
    destruct Ht; discriminate ].
  destruct (Hb d eq_refl).
Qed.

(** Every answer of the server is one of the three above. *)
Lemma answer_cases self (r : http_result) :
  (exists e, verification_failure self r e)
  \/ (exists status text d,
        r = Responded status text (JDict d) /\
        in_range 400 600 status = false /\ confirms self d)
  \/ (exists status text body,
        r = Responded status text body /\
        in_range 400 600 status = false /\ forall d, body <> JDict d).
Proof.
  destruct r as [msg | status text body].
  - left. eexists. constructor.
  - destruct (in_range 400 600 status) eqn:Hs.
    + left. eexists. constructor. exact Hs.
    + destruct body as [| | | | |d];
        try (right; right; do 3 eexists; repeat split; [exact Hs | congruence]).
      destruct (str_truthy (root_api_key self)) eqn:Hroot;
        destruct (truthy (default JNull (d !! "root"))) eqn:Hdr;
        destruct (str_truthy (api_key self)) eqn:Hapi;
        destruct (truthy (default JNull (d !! "private"))) eqn:Hdp;
        try (left; eexists; apply root_rejected; eassumption);
        try (left; eexists; apply api_rejected; try eassumption; congruence);
        right; left; do 3 eexists; repeat split; try exact Hs;
        intros; congruence.
Qed.

(** A call of [initialize_tokens] sends at most the request of its client,
    and either leaves the cache alone or fills it with a truthy record. *)
Lemma initialize_tokens_effect self w :
  let w' := (initialize_tokens self w).2 in
  (tokens_response w' = tokens_response w /\
   tokens_verified w' = tokens_verified w /\
   (net w' = net w \/
    cached w = false /\ net w' = (net w ++ [tokens_request self])%list))
  \/ (cached w = false /\ cached w' = true /\
      net w' = (net w ++ [tokens_request self])%list).
Proof.
  simpl. destruct (cached w) eqn:Hc.
  { rewrite initialize_tokens_cached by assumption. left. simpl. auto. }
  destruct (has_tokens self) eqn:Ht.
  2:{ rewrite initialize_tokens_no_tokens by assumption. left. auto. }
  destruct (answer_cases self
              (requests_post (net w) (tokens_url self) (tokens_body self)))
    as [[e Hf] | [(st & txt & d & Hr & Hs & Hd) | (st & txt & b & Hr & Hs & Hb)]].
  - rewrite (initialize_tokens_failure self w e) by assumption.
    left. simpl. auto.
  - rewrite (initialize_tokens_success self w st txt d) by assumption.
    right. simpl. repeat split. unfold cached. simpl.
    rewrite <- (confirms_truthy self d Ht Hd). simpl.
    destruct (size d); reflexivity.
  - rewrite (initialize_tokens_malformed self w st txt b) by assumption.
    left. simpl. auto.
Qed.

End Paths.

(** ** Processes and the cache *)

Lemma cached_same_cache w w' :
  same_cache w w' -> cached w' = cached w.
Proof. intros (H1 & H2 & _). unfold cached. rewrite H1, H2. reflexivity. Qed.

Lemma verification_calls_send_tokens self w w' :
  net w' = (net w ++ [tokens_request self])%list ->
  verification_calls w' = (verification_calls w ++ [tokens_request self])%list.
Proof.
  intros Hn. unfold verification_calls. rewrite Hn, List.filter_app.
  reflexivity.
Qed.

Lemma verification_calls_same_net w w' :
  net w' = net w -> verification_calls w' = verification_calls w.
Proof. intros Hn. unfold verification_calls. rewrite Hn. reflexivity. Qed.

Section ProcessFacts.
Context `{Remote}.

Lemma init_unfold cfg w :
  __init__ cfg w
  = match (if str_truthy (cfg_api_key cfg)
           then initialize_tokens (client_of cfg) (send UpdateCheck w)
           else (Return tt, send UpdateCheck w)) with
    | (Return _, w') => (Return (client_of cfg), w')
    | (Raise e, w') => (Raise e, w')
    end.
Proof.
  unfold __init__, check_for_updates. cbv [mbind M_bind mret M_ret].
  fold (client_of cfg). simpl.
  destruct (str_truthy (cfg_api_key cfg)); [ | reflexivity ].
  destruct (initialize_tokens (client_of cfg) (send UpdateCheck w))
    as [[[] | e] w']; reflexivity.
Qed.

Lemma init_world cfg w :
  (__init__ cfg w).2
  = if str_truthy (cfg_api_key cfg)
    then (initialize_tokens (client_of cfg) (send UpdateCheck w)).2
    else send UpdateCheck w.
Proof.
  rewrite init_unfold. destruct (str_truthy (cfg_api_key cfg)).
  - destruct (initialize_tokens (client_of cfg) (send UpdateCheck w))
      as [[[] | e] w']; reflexivity.
  - reflexivity.
Qed.

(** Once the condition of line 55 holds, no operation changes the cache or
    verifies again. *)
Lemma run_op_cached o w :
  cached w = true -> same_cache w (run_op o w).
Proof.
  intros Hc. destruct o; simpl.
  - rewrite init_world.
    assert (Hu : same_cache w (send UpdateCheck w))
      by (apply same_cache_send; reflexivity).
    destruct (str_truthy (cfg_api_key cfg)); [ | exact Hu ].
    rewrite initialize_tokens_cached
      by (rewrite (cached_same_cache _ _ Hu); exact Hc).
    eapply same_cache_trans; [exact Hu | repeat split].
  - rewrite initialize_tokens_cached by exact Hc. repeat split.
  - apply keeps_cache_is_valid_data.
  - apply keeps_cache_send_email.
  - apply keeps_cache_get_random.
  - apply keeps_cache_public.
  - apply keeps_cache_public.
  - apply keeps_cache_public.
  - apply keeps_cache_public.
Qed.

(** An operation keeps the two class attributes, or fills the cache. *)
Lemma run_op_effect o w :
  (tokens_response (run_op o w) = tokens_response w /\
   tokens_verified (run_op o w) = tokens_verified w)
  \/ cached (run_op o w) = true.
Proof.
  assert (Hi : forall self w0,
             tokens_response w0 = tokens_response w ->
             tokens_verified w0 = tokens_verified w ->
             (tokens_response (initialize_tokens self w0).2 = tokens_response w /\
              tokens_verified (initialize_tokens self w0).2 = tokens_verified w)
             \/ cached (initialize_tokens self w0).2 = true).
  { intros self w0 H1 H2.
    destruct (initialize_tokens_effect self w0) as [(E1 & E2 & _) | (_ & E & _)].
    - left. split; congruence.
    - right. exact E. }
  assert (Hk : forall w', same_cache w w' ->
             (tokens_response w' = tokens_response w /\
              tokens_verified w' = tokens_verified w)
             \/ cached w' = true).
  { intros w' (H1 & H2 & _). left. split; assumption. }
  destruct o; simpl;
    [ | | apply Hk, keeps_cache_is_valid_data
      | apply Hk, keeps_cache_send_email
      | apply Hk, keeps_cache_get_random
      | apply Hk, keeps_cache_public ..].
  - rewrite init_world. destruct (str_truthy (cfg_api_key cfg)).
    + apply Hi; reflexivity.
    + left. split; reflexivity.
  - apply Hi; reflexivity.
Qed.

Lemma run_op_cache_inv o w : cache_inv w -> cache_inv (run_op o w).
Proof.
  intros Hinv. destruct (run_op_effect o w) as [[H1 H2] | Hc].
  - unfold cache_inv. rewrite H1, H2. exact Hinv.
  - unfold cached in Hc. apply andb_true_iff in Hc as [Ht _].
    intros _. exact Ht.
Qed.

Lemma steps_cache_inv w w' : steps w w' -> cache_inv w -> cache_inv w'.
Proof.
  induction 1 as [ | w w' o Hs IH]; intros Hinv.
  - exact Hinv.
  - apply run_op_cache_inv, IH, Hinv.
Qed.

Lemma reachable_cache_inv w : reachable w -> cache_inv w.
Proof.
  intros Hr. apply (steps_cache_inv _ _ Hr). intros Hv. discriminate.
Qed.

(** In a process, the flag alone tells that the cache is filled. *)
Lemma reachable_verified_cached w :
  reachable w -> tokens_verified w = true -> cached w = true.
Proof.
  intros Hr Hv. unfold cached.
  rewrite (reachable_cache_inv w Hr Hv), Hv. reflexivity.
Qed.

Lemma steps_cached w w' :
  steps w w' -> cached w = true -> same_cache w w'.
Proof.
  induction 1 as [ | w w' o Hs IH]; intros Hc.
  - apply same_cache_refl.
  - specialize (IH Hc). eapply same_cache_trans; [exact IH | ].
    apply run_op_cached. rewrite (cached_same_cache _ _ IH). exact Hc.
Qed.

Lemma steps_trans w1 w2 w3 : steps w1 w2 -> steps w2 w3 -> steps w1 w3.
Proof.
  intros H12 H23. induction H23 as [ | w2 w3 o Hs IH].
  - exact H12.
  - apply steps_op, IH, H12.
Qed.

Lemma reachable_run_op o w : reachable w -> reachable (run_op o w).
Proof. intros Hr. apply steps_op, Hr. Qed.

End ProcessFacts.

(** * The claims *)

(** C1. In a process, once the token cache holds [verified = true], a call
    of [initialize_tokens] by any client returns at once, prints that the
    cached response is used and sends nothing; so two calls in a row of
    which the first leaves the cache verified make exactly one verification
    request when the process was unverified before (and none when it was
    verified already). *)
Theorem initialize_tokens_verified_once `{Remote}
  (w : world) (self1 self2 : client) :
  reachable w ->
  tokens_verified (initialize_tokens self1 w).2 = true ->
  let w1 := (initialize_tokens self1 w).2 in
  initialize_tokens self2 w1
  = (Return tt, printed "[Dymo API] Using cached tokens response." w1)
  /\ net (initialize_tokens self2 w1).2 = net w1
  /\ verification_calls (initialize_tokens self2 w1).2
     = (verification_calls w
        ++ (if tokens_verified w then [] else [tokens_request self1]))%list.
Proof.
  intros Hr Hv w1.
  assert (Hr1 : reachable w1)
    by apply (reachable_run_op (OpInitializeTokens self1) w Hr).
  assert (Hc1 : cached w1 = true)
    by (apply reachable_verified_cached; assumption).
  rewrite (initialize_tokens_cached self2 w1 Hc1). simpl.
  split; [reflexivity | split; [reflexivity | ]].
  change (verification_calls (printed "[Dymo API] Using cached tokens response." w1))
    with (verification_calls w1).
  destruct (tokens_verified w) eqn:Hw.
  - assert (Hc : cached w = true)
      by (apply reachable_verified_cached; assumption).
    subst w1. rewrite (initialize_tokens_cached self1 w Hc).
    rewrite app_nil_r. reflexivity.
  - destruct (initialize_tokens_effect self1 w) as [(_ & E & _) | (_ & _ & E)].
    + simpl in E. rewrite E, Hw in Hv. discriminate.
    + apply verification_calls_send_tokens. exact E.
Qed.

Lemma initialize_tokens_verified_once_witness :
  let R := sample_remote confirm_all no_payload in
  let a := @client_of R alice in
  let b := @client_of R bob in
  let w2 := (initialize_tokens b (initialize_tokens a initial_world).2).2 in
  net w2 = net (initialize_tokens a initial_world).2
  /\ verification_calls w2 = [tokens_request a].
Proof.
  intros R a b w2.
  destruct (initialize_tokens_verified_once (H := R) initial_world a b)
    as (_ & Hn & Hv).
  - apply steps_refl.
  - vm_compute. reflexivity.
  - split; [exact Hn | exact Hv].
Defined.

(** The requests of a call of [initialize_tokens] on an unverified cache:
    the one request of line 63 when the client holds a credential, none
    otherwise, whatever the server answers. *)
Lemma initialize_tokens_net `{Remote} (self : client) (w : world) :
  cached w = false ->
  net (initialize_tokens self w).2
  = (net w ++ (if has_tokens self then [tokens_request self] else []))%list.
Proof.
  intros Hc. destruct (has_tokens self) eqn:Ht.
  2:{ rewrite initialize_tokens_no_tokens by assumption.
      rewrite app_nil_r. reflexivity. }
  destruct (answer_cases self
              (requests_post (net w) (tokens_url self) (tokens_body self)))
    as [[e Hf] | [(st & txt & d & Hr & Hs & Hd) | (st & txt & b & Hr & Hs & Hb)]].
  - rewrite (initialize_tokens_failure self w e) by assumption. reflexivity.
  - rewrite (initialize_tokens_success self w st txt d) by assumption.
    reflexivity.
  - rewrite (initialize_tokens_malformed self w st txt b) by assumption.
    reflexivity.
Qed.

(** The shape of the map of lines 56-58. *)
Lemma has_tokens_orb (self : client) :
  has_tokens self
  = str_truthy (root_api_key self) || str_truthy (api_key self).
Proof.
  unfold has_tokens, build_tokens.
  destruct (str_truthy (root_api_key self)), (str_truthy (api_key self));
    reflexivity.
Qed.

Lemma build_tokens_empty (self : client) :
  if has_tokens self then True else build_tokens self = ∅.
Proof.
  rewrite has_tokens_orb. unfold build_tokens.
  destruct (str_truthy (root_api_key self)), (str_truthy (api_key self));
    cbn [orb]; first [exact I | exact eq_refl].
Qed.

Lemma build_tokens_lookup (self : client) :
  build_tokens self !! "root"
  = (if str_truthy (root_api_key self)
     then (fun r => JStr ("Bearer " ++ r)) <$> root_api_key self
     else None)
  /\ build_tokens self !! "private"
     = (if str_truthy (api_key self)
        then (fun k => JStr ("Bearer " ++ k)) <$> api_key self
        else None)
  /\ dom (build_tokens self) ⊆ {["root"; "private"]}.
Proof.
  unfold build_tokens.
  destruct (root_api_key self) as [[|c r]|], (api_key self) as [[|c' k]|];
    cbn [str_truthy format_str];
    (split; [ rewrite ?lookup_insert_eq, ?lookup_insert_ne, ?lookup_empty
                by discriminate; reflexivity | ]);
    (split; [ rewrite ?lookup_insert_eq, ?lookup_insert_ne, ?lookup_empty
                by discriminate; reflexivity | ]);
    rewrite ?dom_insert_L, ?dom_empty_L; set_solver.
Qed.

(** C7. When verification is performed (the cache is not filled),
    [initialize_tokens] sends exactly one request if the client holds a
    credential and none otherwise; the request is a POST to
    [base_url + "/v1/dvr/tokens"] with body [{"tokens": tokens}], where
    [tokens] has the key ["root"] (value ["Bearer " + root]) exactly when
    the root credential is set and non-empty, the key ["private"] (value
    ["Bearer " + api]) exactly when the API credential is set and non-empty,
    and no other key; with neither credential the map is empty. *)
Theorem verification_request_shape `{Remote} (self : client) (w : world) :
  cached w = false ->
  net (initialize_tokens self w).2
  = (net w
     ++ (if has_tokens self
         then [TokensPost (base_url self ++ "/v1/dvr/tokens")
                 (JDict {["tokens" := JDict (build_tokens self)]})]
         else []))%list
  /\ has_tokens self
     = str_truthy (root_api_key self) || str_truthy (api_key self)
  /\ build_tokens self !! "root"
     = (if str_truthy (root_api_key self)
        then (fun r => JStr ("Bearer " ++ r)) <$> root_api_key self
        else None)
  /\ build_tokens self !! "private"
     = (if str_truthy (api_key self)
        then (fun k => JStr ("Bearer " ++ k)) <$> api_key self
        else None)
  /\ dom (build_tokens self) ⊆ {["root"; "private"]}
  /\ (if has_tokens self then True else build_tokens self = ∅).
Proof.
  intros Hc. split; [exact (initialize_tokens_net self w Hc) | ].
  split; [apply has_tokens_orb | ].
  destruct (build_tokens_lookup self) as (Hroot & Hapi & Hdom).
  repeat split; try assumption. apply build_tokens_empty.
Qed.

Lemma verification_request_shape_witness :
  let R := sample_remote confirm_all no_payload in
  let a := @client_of R alice in
  net (initialize_tokens a initial_world).2
  = [TokensPost "https://api.tpeoficial.com/v1/dvr/tokens"
       (JDict {["tokens" :=
          JDict {["root" := JStr "Bearer root-a";
                  "private" := JStr "Bearer key-a"]}]})].
Proof.
  intros R a.
  destruct (verification_request_shape (H := R) a initial_world eq_refl)
    as (Hn & _).
  rewrite Hn. vm_compute. reflexivity.
Defined.

(** C9. The cache is one slot for the whole process: after the construction
    of one client has left its credentials verified, the construction of a
    second client from any configuration, also one with other credentials,
    returns the client, makes no verification call and leaves the record and
    the verdict of the first client in the cache. *)
Theorem second_client_shares_cache `{Remote}
  (w : world) (cfg1 cfg2 : config) :
  reachable w ->
  tokens_verified (__init__ cfg1 w).2 = true ->
  let w1 := (__init__ cfg1 w).2 in
  (__init__ cfg2 w1).1 = Return (client_of cfg2)
  /\ verification_calls (__init__ cfg2 w1).2 = verification_calls w1
  /\ tokens_response (__init__ cfg2 w1).2 = tokens_response w1
  /\ tokens_verified (__init__ cfg2 w1).2 = true.
Proof.
  intros Hr Hv w1.
  assert (Hr1 : reachable w1) by apply (reachable_run_op (OpInit cfg1) w Hr).
  assert (Hc1 : cached w1 = true)
    by (apply reachable_verified_cached; assumption).
  destruct (run_op_cached (OpInit cfg2) w1 Hc1) as (H1 & H2 & H3).
  simpl in H1, H2, H3. repeat split; try assumption.
  - rewrite init_unfold. destruct (str_truthy (cfg_api_key cfg2)).
    + rewrite initialize_tokens_cached; [reflexivity | ].
      rewrite (cached_same_cache w1); [exact Hc1 | ].
      apply same_cache_send. reflexivity.
    + reflexivity.
  - rewrite H2. exact Hv.
Qed.

Lemma second_client_shares_cache_witness :
  let R := sample_remote confirm_all no_payload in
  let w1 := (__init__ alice initial_world).2 in
  (__init__ bob w1).1 = Return (client_of bob)
  /\ verification_calls (__init__ bob w1).2
     = [tokens_request (client_of alice)]
  /\ tokens_response (__init__ bob w1).2
     = JDict {["root" := JBool true; "private" := JBool true]}.
Proof.
  intros R w1.
  destruct (second_client_shares_cache (H := R) initial_world alice bob)
    as (Hret & Hcalls & Hresp & _).
  - apply steps_refl.
  - vm_compute. reflexivity.
  - subst w1. split; [exact Hret | split].
    + rewrite Hcalls. vm_compute. reflexivity.
    + rewrite Hresp. vm_compute. reflexivity.
Defined.

(** Construction raises only on an accepted answer whose body is not a JSON
    object: with a server whose accepted answers carry objects, [__init__]
    returns the instance whatever the status and the verdict. *)
Lemma init_returns `{Remote} (cfg : config) (w : world) :
  (forall history url body status text b,
     requests_post history url body = Responded status text b ->
     in_range 400 600 status = false -> exists d, b = JDict d) ->
  exists w', __init__ cfg w = (Return (client_of cfg), w').
Proof.
  intros Hobj. rewrite init_unfold.
  destruct (str_truthy (cfg_api_key cfg)); [ | eexists; reflexivity ].
  set (self := client_of cfg). set (w0 := send UpdateCheck w).
  destruct (cached w0) eqn:Hc.
  { rewrite initialize_tokens_cached by exact Hc. eexists; reflexivity. }
  destruct (has_tokens self) eqn:Ht.
  2:{ rewrite initialize_tokens_no_tokens by assumption.
      eexists; reflexivity. }
  destruct (answer_cases self
              (requests_post (net w0) (tokens_url self) (tokens_body self)))
    as [[e Hf] | [(st & txt & d & Hr & Hs & Hd) | (st & txt & b & Hr & Hs & Hb)]].
  - rewrite (initialize_tokens_failure self w0 e) by assumption.
    eexists; reflexivity.
  - rewrite (initialize_tokens_success self w0 st txt d) by assumption.
    eexists; reflexivity.
  - destruct (Hobj _ _ _ _ _ _ Hr Hs) as [d ->]. destruct (Hb d eq_refl).
Qed.

(** C3. Every failure of a verification that is performed (the call of
    [requests.post] raises, the status is one [raise_for_status] rejects,
    the root credential is supplied and not confirmed, the API credential is
    supplied and not confirmed) is caught in [initialize_tokens] and logged
    at error level; the call returns [None], and so does not stop the
    construction of the client, which returns the instance. *)
Theorem verification_failure_is_swallowed `{Remote}
  (cfg : config) (w : world) (e : exn) :
  cached w = false ->
  has_tokens (client_of cfg) = true ->
  (forall history,
     verification_failure (client_of cfg)
       (requests_post history (tokens_url (client_of cfg))
          (tokens_body (client_of cfg))) e) ->
  let self := client_of cfg in
  let line := "Token validation error: " ++ exn_str e in
  initialize_tokens self w
  = (Return tt, logged line (send (tokens_request self) w))
  /\ __init__ cfg w
     = (Return self,
        if str_truthy (api_key self)
        then logged line (send (tokens_request self) (send UpdateCheck w))
        else send UpdateCheck w).
Proof.
  intros Hc Ht Hf self line. split.
  - apply initialize_tokens_failure; [exact Hc | exact Ht | apply Hf].
  - rewrite init_unfold. fold self.
    change (cfg_api_key cfg) with (api_key self).
    destruct (str_truthy (api_key self)); [ | reflexivity ].
    rewrite (initialize_tokens_failure self (send UpdateCheck w) e);
      [reflexivity | exact Hc | exact Ht | apply Hf].
Qed.

Lemma verification_failure_is_swallowed_witness :
  let R := sample_remote reject_private no_payload in
  let self := @client_of R bob in
  __init__ bob initial_world
  = (Return self,
     World JNull false [UpdateCheck; tokens_request self]
       ["Token validation error: Invalid private token."] []).
Proof.
  intros R self.
  destruct (verification_failure_is_swallowed (H := R) bob initial_world
              (AuthenticationError "Invalid private token."))
    as (_ & Hinit).
  - reflexivity.
  - reflexivity.
  - intros history.
    apply (api_rejected self 200%Z ""
             {["root" := JBool true; "private" := JBool false]}).
    + reflexivity.
    + intros Hroot. discriminate Hroot.
    + reflexivity.
    + vm_compute. reflexivity.
  - rewrite Hinit. reflexivity.
Defined.

(** C6. A failed verification leaves the cache as it was: from an
    unverified cache the verdict stays false and the record stays what it
    was, and the next construction of a client with an API key verifies
    again.  A successful verification stores the record and the verdict, and
    nothing the process does afterwards changes them or verifies again.
    More generally a call that does not end verified has not touched the
    record. *)
Theorem verification_transitions `{Remote} :
  (forall (self : client) (w : world) (e : exn) (cfg : config),
     tokens_verified w = false ->
     has_tokens self = true ->
     verification_failure self
       (requests_post (net w) (tokens_url self) (tokens_body self)) e ->
     str_truthy (cfg_api_key cfg) = true ->
     let w' := (initialize_tokens self w).2 in
     tokens_verified w' = false
     /\ tokens_response w' = tokens_response w
     /\ verification_calls (__init__ cfg w').2
        = (verification_calls w' ++ [tokens_request (client_of cfg)])%list)
  /\ (forall (self : client) (w w'' : world) status text d,
        tokens_verified w = false ->
        has_tokens self = true ->
        requests_post (net w) (tokens_url self) (tokens_body self)
        = Responded status text (JDict d) ->
        in_range 400 600 status = false ->
        confirms self d ->
        let w' := (initialize_tokens self w).2 in
        steps w' w'' ->
        tokens_verified w' = true /\ tokens_response w' = JDict d
        /\ tokens_verified w'' = true /\ tokens_response w'' = JDict d
        /\ verification_calls w'' = verification_calls w')
  /\ (forall (self : client) (w : world),
        tokens_verified w = false ->
        tokens_verified (initialize_tokens self w).2 = false ->
        tokens_response (initialize_tokens self w).2 = tokens_response w).
Proof.
  assert (Hunv : forall w, tokens_verified w = false -> cached w = false).
  { intros w Hv. unfold cached. rewrite Hv. apply andb_false_r. }
  split; [ | split ].
  - intros self w e cfg Hv Ht Hf Hk w'. subst w'.
    rewrite (initialize_tokens_failure self w e) by auto. simpl.
    split; [exact Hv | split; [reflexivity | ]].
    rewrite init_world, Hk.
    set (w1 := send UpdateCheck _).
    assert (Hc1 : cached w1 = false) by (apply Hunv; exact Hv).
    assert (Ht1 : has_tokens (client_of cfg) = true)
      by (apply has_tokens_iff; right; exact Hk).
    unfold verification_calls.
    rewrite (initialize_tokens_net (client_of cfg) w1 Hc1), Ht1.
    subst w1. simpl. rewrite !List.filter_app. simpl.
    rewrite app_nil_r. reflexivity.
  - intros self w w'' status text d Hv Ht Hr Hs Hd w' Hsteps. subst w'.
    rewrite (initialize_tokens_success self w status text d) in * by auto.
    simpl in *.
    set (w' := printed _ _) in *.
    assert (Hc' : cached w' = true).
    { unfold cached.
      change (tokens_response w') with (JDict d).
      change (tokens_verified w') with true.
      rewrite (confirms_truthy self d Ht Hd). reflexivity. }
    destruct (steps_cached w' w'' Hsteps Hc') as (H1 & H2 & H3).
    repeat split; try reflexivity; try assumption.
  - intros self w Hv Hv'.
    destruct (initialize_tokens_effect self w) as [(E & _) | (_ & E & _)].
    + exact E.
    + simpl in E. unfold cached in E. rewrite Hv' in E.
      rewrite andb_false_r in E. discriminate.
Qed.

Lemma verification_transitions_witness :
  (let R := sample_remote reject_private no_payload in
   let w' := (initialize_tokens (client_of bob) initial_world).2 in
   tokens_verified w' = false /\ tokens_response w' = JNull
   /\ verification_calls (__init__ bob w').2
      = [tokens_request (client_of bob); tokens_request (client_of bob)])
  /\ (let R := sample_remote confirm_all no_payload in
      let w' := (initialize_tokens (client_of alice) initial_world).2 in
      let w'' := run_op (OpInit bob) (run_op (OpGetRandom (client_of bob) ∅) w') in
      tokens_verified w'' = true
      /\ tokens_response w''
         = JDict {["root" := JBool true; "private" := JBool true]}
      /\ verification_calls w'' = [tokens_request (client_of alice)]).
Proof.
  split.
  - intros R w'.
    destruct (proj1 (verification_transitions (H := R)) (client_of bob)
                initial_world (AuthenticationError "Invalid private token.")
                bob) as (Hv & Hresp & Hcalls).
    + reflexivity.
    + reflexivity.
    + apply (api_rejected (client_of bob) 200%Z ""
               {["root" := JBool true; "private" := JBool false]}).
      * reflexivity.
      * intros Hroot. discriminate Hroot.
      * reflexivity.
      * vm_compute. reflexivity.
    + reflexivity.
    + subst w'. split; [exact Hv | split; [exact Hresp | ]].
      rewrite Hcalls. vm_compute. reflexivity.
  - intros R w' w''.
    destruct (proj1 (proj2 (verification_transitions (H := R)))
                (client_of alice) initial_world w'' 200%Z ""
                {["root" := JBool true; "private" := JBool true]})
      as (_ & _ & Hv & Hresp & Hcalls).
    + reflexivity.
    + reflexivity.
    + reflexivity.
    + reflexivity.
    + split; intros _; vm_compute; reflexivity.
    + subst w''. apply steps_op, steps_op, steps_refl.
    + split; [exact Hv | split; [exact Hresp | ]].
      rewrite Hcalls. vm_compute. reflexivity.
Defined.

(** C8. A client with neither a root credential nor an email-transport
    configuration (both absent or empty): [send_email] logs the
    configuration error and returns [None]; it looks up no handler and
    sends nothing. *)
Theorem send_email_requires_configuration `{Remote}
  (self : client) (data : gmap string json) (w : world) :
  str_truthy (root_api_key self) = false ->
  truthy (server_email_config self) = false ->
  send_email self data w
  = (Return None, logged "You must configure the email client settings." w)
  /\ net (send_email self data w).2 = net w.
Proof.
  intros Hroot Hcfg. unfold send_email. rewrite Hroot, Hcfg.
  split; reflexivity.
Qed.

Lemma send_email_requires_configuration_witness :
  let R := sample_remote confirm_all no_payload in
  send_email (client_of bob) {["to" := JStr "user@example.com"]} initial_world
  = (Return None,
     World JNull false [] ["You must configure the email client settings."] []).
Proof.
  intros R.
  exact (proj1 (send_email_requires_configuration (H := R) (client_of bob)
                  {["to" := JStr "user@example.com"]} initial_world
                  eq_refl eq_refl)).
Defined.

(** ** The private capabilities *)

Ltac run_dict :=
  cbv beta iota zeta delta
    [mbind M_bind mret M_ret raise rename_ip_keys on_ip
     py_get py_getitem py_setitem py_pop default from_option id].

Ltac dict_step :=
  first
    [ rewrite lookup_insert_eq
    | rewrite lookup_insert_ne by discriminate
    | rewrite lookup_delete_eq
    | rewrite lookup_delete_ne by discriminate
    | rewrite lookup_empty
    | match goal with H : _ !! _ = _ |- _ => rewrite H end
    | match goal with H : truthy _ = _ |- _ => rewrite H end ];
  run_dict.

Lemma rename_ip_keys_renames (raw ip : gmap string json) (a c : json)
  (w : world) :
  raw !! "ip" = Some (JDict ip) ->
  ip !! "as" = Some a -> truthy a = true ->
  ip !! "class" = Some c ->
  rename_ip_keys raw w
  = (Return (<["ip" := JDict (delete "class" (delete "as"
                (<["_class" := c]> (<["_as" := a]> ip))))]> raw), w).
Proof.
  intros Hip Has Ha Hclass. run_dict. repeat dict_step.
  rewrite !insert_insert_eq. reflexivity.
Qed.

Lemma rename_ip_keys_missing_class (raw ip : gmap string json) (a : json)
  (w : world) :
  raw !! "ip" = Some (JDict ip) ->
  ip !! "as" = Some a -> truthy a = true ->
  ip !! "class" = None ->
  rename_ip_keys raw w = (Raise (KeyError "class"), w).
Proof.
  intros Hip Has Ha Hclass. run_dict. repeat dict_step. reflexivity.
Qed.

(** The guard of line 100: a falsy ["as"] leaves the payload as it is. *)
Lemma rename_ip_keys_falsy (raw ip : gmap string json) (w : world) :
  raw !! "ip" = Some (JDict ip) ->
  truthy (default JNull (ip !! "as")) = false ->
  rename_ip_keys raw w = (Return raw, w).
Proof.
  intros Hip Ha. run_dict. rewrite Hip. run_dict.
  unfold default, from_option, id in Ha. rewrite Ha. reflexivity.
Qed.

Lemma rename_ip_keys_no_ip (raw : gmap string json) (w : world) :
  raw !! "ip" = None ->
  rename_ip_keys raw w = (Return raw, w).
Proof. intros Hip. run_dict. repeat dict_step. reflexivity. Qed.

Section Dispatch.
Context `{Remote}.

(** With an API key, a private capability is one call of its handler. *)
Lemma private_dispatch {A : Type} (self : client) (key fn : string)
  (args : json) (k : gmap string json -> M A) (w : world) :
  api_key self = Some key ->
  (f ← _get_function self "private" fn; response ← py_call f args; k response) w
  = match branch (net w) "private" fn (Some key) args with
    | Return raw => k raw (send (CapabilityCall "private" fn (Some key) args) w)
    | Raise e => (Raise e, send (CapabilityCall "private" fn (Some key) args) w)
    end.
Proof.
  intros Hk. unfold _get_function. rewrite Hk.
  cbv [mbind M_bind mret M_ret py_call branch_call
       String.eqb Ascii.eqb Bool.eqb andb].
  destruct (branch (net w) "private" fn (Some key) args); reflexivity.
Qed.

(** Without an API key, [_get_function] logs and returns [None], and the
    caller calls that [None]. *)
Lemma private_dispatch_keyless {A : Type} (self : client) (fn : string)
  (args : json) (k : gmap string json -> M A) (w : world) :
  api_key self = None ->
  _get_function self "private" fn w
  = (Return None, logged "Invalid private token." w)
  /\ (f ← _get_function self "private" fn; response ← py_call f args; k response) w
     = (Raise (TypeError "'NoneType' object is not callable"),
        logged "Invalid private token." w).
Proof.
  intros Hk. unfold _get_function. rewrite Hk. split; reflexivity.
Qed.

(** A public capability is one call of its handler, with no credential. *)
Lemma public_dispatch {A : Type} (self : client) (fn : string)
  (args : json) (k : gmap string json -> M A) (w : world) :
  (f ← _get_function self "public" fn; response ← py_call f args; k response) w
  = match branch (net w) "public" fn None args with
    | Return raw => k raw (send (CapabilityCall "public" fn None args) w)
    | Raise e => (Raise e, send (CapabilityCall "public" fn None args) w)
    end.
Proof.
  unfold _get_function.
  cbv [mbind M_bind mret M_ret py_call branch_call
       String.eqb Ascii.eqb Bool.eqb andb].
  destruct (branch (net w) "public" fn None args); reflexivity.
Qed.

End Dispatch.

(** C10. A client with an API credential, and a payload of the private
    data-verification capability whose ["ip"] object has a truthy ["as"] and
    no ["class"]: [is_valid_data] raises [KeyError('class')] after the one
    call of the handler, and returns no typed result. *)
Theorem is_valid_data_missing_class `{Remote}
  (self : client) (key : string) (data : json) (w : world)
  (raw ip : gmap string json) (a : json) :
  api_key self = Some key ->
  branch (net w) "private" "is_valid_data" (Some key) data = Return raw ->
  raw !! "ip" = Some (JDict ip) ->
  ip !! "as" = Some a ->
  truthy a = true ->
  ip !! "class" = None ->
  is_valid_data self data w
  = (Raise (KeyError "class"),
     send (CapabilityCall "private" "is_valid_data" (Some key) data) w).
Proof.
  intros Hk Hb Hip Has Ha Hclass. unfold is_valid_data.
  rewrite (private_dispatch self key) by exact Hk. rewrite Hb.
  cbv [mbind M_bind].
  rewrite (rename_ip_keys_missing_class raw ip a) by assumption.
  reflexivity.
Qed.

Lemma is_valid_data_missing_class_witness :
  let R := sample_remote confirm_all (Return classless_ip_lookup) in
  is_valid_data (client_of bob) (JDict {["ip" := JStr "8.8.8.8"]})
    initial_world
  = (Raise (KeyError "class"),
     World JNull false
       [CapabilityCall "private" "is_valid_data" (Some "key-b")
          (JDict {["ip" := JStr "8.8.8.8"]})] [] []).
Proof.
  intros R.
  apply (is_valid_data_missing_class (H := R) (client_of bob) "key-b"
           (JDict {["ip" := JStr "8.8.8.8"]}) initial_world
           classless_ip_lookup
           {["valid" := JBool true; "as" := JStr "AS15169 Google LLC"]}
           (JStr "AS15169 Google LLC"));
    vm_compute; reflexivity.
Defined.

(** C4, as the code has it.  For a payload of the data-verification
    capability whose ["ip"] object holds the keys ["as"] and ["class"] and
    whose ["as"] is truthy, the payload [is_valid_data] hands to the
    constructor of [DataVerifierResponse] holds under ["ip"] the keys
    ["_as"] and ["_class"] with the values of ["as"] and ["class"], neither
    ["as"] nor ["class"], and every other key as it was. *)
Theorem is_valid_data_renames_ip_keys `{Remote}
  (self : client) (key : string) (data : json) (w : world)
  (raw ip : gmap string json) (a c : json) :
  api_key self = Some key ->
  branch (net w) "private" "is_valid_data" (Some key) data = Return raw ->
  raw !! "ip" = Some (JDict ip) ->
  ip !! "as" = Some a ->
  ip !! "class" = Some c ->
  truthy a = true ->
  let ip' := delete "class" (delete "as"
               (<["_class" := c]> (<["_as" := a]> ip))) in
  is_valid_data self data w
  = construct DataVerifierResponse (<["ip" := JDict ip']> raw)
      (send (CapabilityCall "private" "is_valid_data" (Some key) data) w)
  /\ renamed_as_claimed ip ip'
  /\ ip' !! "_as" = Some a /\ ip' !! "_class" = Some c
  /\ (forall k, k ∉ ["as"; "class"; "_as"; "_class"] -> ip' !! k = ip !! k).
Proof.
  intros Hk Hb Hip Has Hclass Ha ip'.
  assert (Hlas : ip' !! "_as" = Some a).
  { subst ip'. rewrite !lookup_delete_ne by discriminate.
    rewrite lookup_insert_ne by discriminate. apply lookup_insert_eq. }
  assert (Hlclass : ip' !! "_class" = Some c).
  { subst ip'. rewrite !lookup_delete_ne by discriminate.
    apply lookup_insert_eq. }
  assert (Hnas : ip' !! "as" = None).
  { subst ip'. rewrite lookup_delete_ne by discriminate.
    apply lookup_delete_eq. }
  assert (Hnclass : ip' !! "class" = None).
  { subst ip'. apply lookup_delete_eq. }
  split; [ | split; [ | split; [exact Hlas | split; [exact Hlclass | ]]]].
  - unfold is_valid_data.
    rewrite (private_dispatch self key) by exact Hk. rewrite Hb.
    cbv [mbind M_bind].
    rewrite (rename_ip_keys_renames raw ip a c) by assumption.
    reflexivity.
  - unfold renamed_as_claimed. rewrite Has, Hclass. auto.
  - intros k Hnot. subst ip'.
    assert (Hk1 : "as" <> k) by (intros <-; apply Hnot; set_solver).
    assert (Hk2 : "class" <> k) by (intros <-; apply Hnot; set_solver).
    assert (Hk3 : "_as" <> k) by (intros <-; apply Hnot; set_solver).
    assert (Hk4 : "_class" <> k) by (intros <-; apply Hnot; set_solver).
    rewrite !lookup_delete_ne by assumption.
    rewrite !lookup_insert_ne by assumption. reflexivity.
Qed.

Lemma is_valid_data_renames_ip_keys_witness :
  let R := sample_remote confirm_all (Return public_ip_lookup) in
  is_valid_data (client_of bob) (JDict {["ip" := JStr "8.8.8.8"]})
    initial_world
  = (Return (Instance DataVerifierResponse
       {["ip" := JDict {["valid" := JBool true;
                         "_as" := JStr "AS15169 Google LLC";
                         "_class" := JStr "A"; "ip" := JStr "8.8.8.8"]}]}),
     World JNull false
       [CapabilityCall "private" "is_valid_data" (Some "key-b")
          (JDict {["ip" := JStr "8.8.8.8"]})] [] []).
Proof.
  intros R.
  destruct (is_valid_data_renames_ip_keys (H := R) (client_of bob) "key-b"
              (JDict {["ip" := JStr "8.8.8.8"]}) initial_world
              public_ip_lookup
              {["valid" := JBool true; "as" := JStr "AS15169 Google LLC";
                "class" := JStr "A"; "ip" := JStr "8.8.8.8"]}
              (JStr "AS15169 Google LLC") (JStr "A"))
    as (Hrun & _); [vm_compute; reflexivity .. | ].
  rewrite Hrun. vm_compute. reflexivity.
Defined.

(** C4 as stated fails: the payload below holds ["as"] and ["class"] under
    ["ip"], the value of ["as"] is the empty string, and [is_valid_data]
    hands the payload on unchanged, with both keys and with neither ["_as"]
    nor ["_class"]. *)
Lemma is_valid_data_keeps_falsy_as :
  let R := sample_remote confirm_all (Return private_ip_lookup) in
  let ip : gmap string json :=
    {["valid" := JBool true; "as" := JStr ""; "class" := JStr "C";
      "ip" := JStr "192.168.100.1"]} in
  private_ip_lookup !! "ip" = Some (JDict ip)
  /\ ip !! "as" = Some (JStr "") /\ ip !! "class" = Some (JStr "C")
  /\ is_valid_data (client_of bob) (JDict {["ip" := JStr "192.168.100.1"]})
       initial_world
     = (Return (Instance DataVerifierResponse private_ip_lookup),
        World JNull false
          [CapabilityCall "private" "is_valid_data" (Some "key-b")
             (JDict {["ip" := JStr "192.168.100.1"]})] [] [])
  /\ ip !! "_as" = None /\ ip !! "_class" = None
  /\ ~ renamed_as_claimed ip ip.
Proof.
  intros R ip. repeat split; try (vm_compute; reflexivity).
  intros (H1 & _). vm_compute in H1. discriminate H1.
Qed.

(** C2, on the code.  For a client without an API credential a private
    capability logs ["Invalid private token."] and sends nothing, and
    [_get_function] itself returns [None]; but [is_valid_data],
    [get_random] and [send_email] (once its own guard is passed) call what
    [_get_function] returned, so they raise [TypeError] where the claim has
    them return an absent result. *)
Theorem private_capability_without_key `{Remote}
  (self : client) (data : json) (fields : gmap string json) (w : world) :
  api_key self = None ->
  let w' := logged "Invalid private token." w in
  _get_function self "private" "is_valid_data" w = (Return None, w')
  /\ is_valid_data self data w
     = (Raise (TypeError "'NoneType' object is not callable"), w')
  /\ get_random self fields w
     = (Raise (TypeError "'NoneType' object is not callable"), w')
  /\ send_email self fields w
     = (if negb (truthy (server_email_config self))
           && negb (str_truthy (root_api_key self))
        then (Return None,
              logged "You must configure the email client settings." w)
        else (Raise (TypeError "'NoneType' object is not callable"), w'))
  /\ net w' = net w.
Proof.
  intros Hk w'. split; [ | split; [ | split; [ | split ]]].
  - apply (private_dispatch_keyless (A := unit) self "is_valid_data" data
             (fun _ => mret tt) w Hk).
  - unfold is_valid_data.
    apply (private_dispatch_keyless self "is_valid_data" data _ w Hk).
  - unfold get_random.
    apply (private_dispatch_keyless self "get_random" (JDict fields) _ w Hk).
  - unfold send_email.
    destruct (negb (truthy (server_email_config self))
              && negb (str_truthy (root_api_key self))); [reflexivity | ].
    apply (private_dispatch_keyless self "send_email" _ _ w Hk).
  - reflexivity.
Qed.

Lemma private_capability_without_key_witness :
  let R := sample_remote confirm_all (Return public_ip_lookup) in
  is_valid_data (client_of anonymous) (JDict {["ip" := JStr "8.8.8.8"]})
    initial_world
  = (Raise (TypeError "'NoneType' object is not callable"),
     World JNull false [] ["Invalid private token."] [])
  /\ send_email (client_of keyless_mailer)
       {["to" := JStr "user@example.com"]} initial_world
     = (Raise (TypeError "'NoneType' object is not callable"),
        World JNull false [] ["Invalid private token."] []).
Proof.
  intros R. split.
  - exact (proj1 (proj2 (private_capability_without_key (H := R)
             (client_of anonymous) (JDict {["ip" := JStr "8.8.8.8"]}) ∅
             initial_world eq_refl))).
  - exact (proj1 (proj2 (proj2 (proj2 (private_capability_without_key (H := R)
             (client_of keyless_mailer) JNull
             {["to" := JStr "user@example.com"]} initial_world eq_refl))))).
Defined.

(** The capabilities whose constructor is the class of their annotation. *)
Lemma sibling_capabilities_construct_their_class `{Remote}
  (self : client) (data : json) (w : world) :
  get_prayer_times self data w
  = match branch (net w) "public" "get_prayer_times" None data with
    | Return raw =>
        construct PrayerTimesResponse raw
          (send (CapabilityCall "public" "get_prayer_times" None data) w)
    | Raise e =>
        (Raise e, send (CapabilityCall "public" "get_prayer_times" None data) w)
    end
  /\ satinizer self data w
     = match branch (net w) "public" "satinizer" None data with
       | Return raw =>
           construct SatinizerResponse raw
             (send (CapabilityCall "public" "satinizer" None data) w)
       | Raise e =>
           (Raise e, send (CapabilityCall "public" "satinizer" None data) w)
       end
  /\ is_valid_pwd self data w
     = match branch (net w) "public" "is_valid_pwd" None data with
       | Return raw =>
           construct IsValidPwdResponse raw
             (send (CapabilityCall "public" "is_valid_pwd" None data) w)
       | Raise e =>
           (Raise e, send (CapabilityCall "public" "is_valid_pwd" None data) w)
       end
  /\ new_url_encrypt self data w
     = match branch (net w) "public" "new_url_encrypt" None data with
       | Return raw =>
           construct UrlEncryptResponse raw
             (send (CapabilityCall "public" "new_url_encrypt" None data) w)
       | Raise e =>
           (Raise e,
            send (CapabilityCall "public" "new_url_encrypt" None data) w)
       end.
Proof. repeat split; apply public_dispatch. Qed.

(** C5, on the code.  With an API key, [get_random] and [send_email] hand
    the raw payload of their handler, unchanged, to a typed constructor;
    the constructor is that of [DataVerifierResponse], not of the
    [SRNGResponse] and [SendEmailResponse] their annotations name. *)
Theorem get_random_constructs_data_verifier `{Remote}
  (self : client) (key : string) (fields : gmap string json) (w : world) :
  api_key self = Some key ->
  truthy (server_email_config self) || str_truthy (root_api_key self) = true ->
  let args := JDict (<["serverEmailConfig" := server_email_config self]> fields) in
  get_random self fields w
  = match branch (net w) "private" "get_random" (Some key) (JDict fields) with
    | Return raw =>
        construct DataVerifierResponse raw
          (send (CapabilityCall "private" "get_random" (Some key)
                   (JDict fields)) w)
    | Raise e =>
        (Raise e,
         send (CapabilityCall "private" "get_random" (Some key)
                 (JDict fields)) w)
    end
  /\ send_email self fields w
     = match branch (net w) "private" "send_email" (Some key) args with
       | Return raw =>
           (result ← construct DataVerifierResponse raw; mret (Some result))
             (send (CapabilityCall "private" "send_email" (Some key) args) w)
       | Raise e =>
           (Raise e,
            send (CapabilityCall "private" "send_email" (Some key) args) w)
       end
  /\ DataVerifierResponse <> SRNGResponse
  /\ DataVerifierResponse <> SendEmailResponse.
Proof.
  intros Hk Hcfg args. split; [ | split; [ | split; discriminate ]].
  - unfold get_random. apply (private_dispatch self key). exact Hk.
  - unfold send_email.
    replace (negb (truthy (server_email_config self))
             && negb (str_truthy (root_api_key self))) with false
      by (rewrite <- negb_orb, Hcfg; reflexivity).
    apply (private_dispatch self key). exact Hk.
Qed.

Lemma get_random_constructs_data_verifier_witness :
  (let R := sample_remote confirm_all (Return random_payload) in
   get_random (client_of mailer) {["min" := JNum 1; "max" := JNum 10]}
     initial_world
   = (Return (Instance DataVerifierResponse random_payload),
      World JNull false
        [CapabilityCall "private" "get_random" (Some "key-m")
           (JDict {["min" := JNum 1; "max" := JNum 10]})] [] []))
  /\ (let R := sample_remote confirm_all (Return email_payload) in
      (send_email (client_of mailer) {["to" := JStr "user@example.com"]}
         initial_world).1
      = Return (Some (Instance DataVerifierResponse email_payload))).
Proof.
  split; intros R.
  - destruct (get_random_constructs_data_verifier (H := R) (client_of mailer)
                "key-m" {["min" := JNum 1; "max" := JNum 10]} initial_world
                eq_refl eq_refl) as (Hrandom & _).
    rewrite Hrandom. reflexivity.
  - destruct (get_random_constructs_data_verifier (H := R) (client_of mailer)
                "key-m" {["to" := JStr "user@example.com"]} initial_world
                eq_refl eq_refl) as (_ & Hemail & _).
    rewrite Hemail. reflexivity.
Defined.

(** * Further properties of the code *)

(** ** The public capabilities *)

(** X1. The public capabilities need no credential and send none: for any
    client, also one built from an empty configuration, each of them makes
    one call of its handler in the module [public] with no key, writes no
    log record and leaves the cache; it returns the instance of its own
    class built from the payload, or raises what the handler or the
    validation raised. *)
Theorem public_capabilities_need_no_credential `{Remote}
  (self : client) (data : json) (w : world) :
  let run (fn : string) (c : model_class)
    : outcome model_instance * world :=
    (match branch (net w) "public" fn None data with
     | Return raw =>
         match validate c raw with
         | Return fs => Return (Instance c fs)
         | Raise e => Raise e
         end
     | Raise e => Raise e
     end,
     send (CapabilityCall "public" fn None data) w) in
  get_prayer_times self data w = run "get_prayer_times" PrayerTimesResponse
  /\ satinizer self data w = run "satinizer" SatinizerResponse
  /\ is_valid_pwd self data w = run "is_valid_pwd" IsValidPwdResponse
  /\ new_url_encrypt self data w = run "new_url_encrypt" UrlEncryptResponse.
Proof.
  intros run.
  assert (Hrun : forall fn c,
    (f ← _get_function self "public" fn; response ← py_call f data;
     construct c response) w = run fn c).
  { intros fn c. rewrite public_dispatch. subst run. simpl.
    destruct (branch (net w) "public" fn None data) as [raw | e];
      [ | reflexivity ].
    unfold construct. destruct (validate c raw); reflexivity. }
  repeat split; apply Hrun.
Qed.

(** ** Failures of a dispatched capability *)



(** ** The request of [send_email] *)

(** X3. With an API key and its guard passed, [send_email] makes one call
    of the handler whose argument is the caller's dict with the key
    ["serverEmailConfig"] set to the configuration of the client: a value
    the caller gave under that key is replaced, every other field is the
    caller's. *)
Theorem send_email_injects_server_config `{Remote}
  (self : client) (key : string) (fields : gmap string json) (w : world) :
  api_key self = Some key ->
  truthy (server_email_config self) || str_truthy (root_api_key self) = true ->
  let args := <["serverEmailConfig" := server_email_config self]> fields in
  net (send_email self fields w).2
  = (net w ++ [CapabilityCall "private" "send_email" (Some key)
                 (JDict args)])%list
  /\ args !! "serverEmailConfig" = Some (server_email_config self)
  /\ (forall k, k <> "serverEmailConfig" -> args !! k = fields !! k)
  /\ errlog (send_email self fields w).2 = errlog w.
Proof.
  intros Hk Hcfg args. subst args.
  split; [ | split; [apply lookup_insert_eq | split ]].
  - unfold send_email.
    replace (negb (truthy (server_email_config self))
             && negb (str_truthy (root_api_key self))) with false
      by (rewrite <- negb_orb, Hcfg; reflexivity).
    rewrite (private_dispatch self key) by exact Hk.
    destruct (branch _ _ _ _ _) as [raw | e]; [ | reflexivity ].
    cbv [mbind M_bind mret M_ret construct].
    destruct (validate DataVerifierResponse raw); reflexivity.
  - intros k Hne. apply lookup_insert_ne. congruence.
  - unfold send_email.
    replace (negb (truthy (server_email_config self))
             && negb (str_truthy (root_api_key self))) with false
      by (rewrite <- negb_orb, Hcfg; reflexivity).
    rewrite (private_dispatch self key) by exact Hk.
    destruct (branch _ _ _ _ _) as [raw | e]; [ | reflexivity ].
    cbv [mbind M_bind mret M_ret construct].
    destruct (validate DataVerifierResponse raw); reflexivity.
Qed.

Lemma send_email_injects_server_config_witness :
  let R := sample_remote confirm_all (Return email_payload) in
  net (send_email (client_of mailer)
         {["to" := JStr "user@example.com";
           "serverEmailConfig" := JStr "mine"]} initial_world).2
  = [CapabilityCall "private" "send_email" (Some "key-m")
       (JDict {["to" := JStr "user@example.com";
                "serverEmailConfig" :=
                  JDict {["host" := JStr "smtp.example.com"]}]})].
Proof.
  intros R.
  destruct (send_email_injects_server_config (H := R) (client_of mailer)
              "key-m"
              {["to" := JStr "user@example.com";
                "serverEmailConfig" := JStr "mine"]}
              initial_world eq_refl eq_refl) as (Hnet & _).
  rewrite Hnet. vm_compute. reflexivity.
Defined.

(** ** The renaming of lines 100-104 on every payload *)

Lemma rename_ip_keys_not_dict (raw : gmap string json) (v : json)
  (w : world) :
  raw !! "ip" = Some v -> (forall d, v <> JDict d) ->
  rename_ip_keys raw w
  = (Raise (AttributeError "object has no attribute 'get'"), w).
Proof.
  intros Hip Hv. run_dict. rewrite Hip. run_dict.
  destruct v as [| | | | |d]; try reflexivity. destruct (Hv d eq_refl).
Qed.

(** The three ways the renaming ends. *)
Lemma rename_ip_keys_cases (raw : gmap string json) (w : world) :
  rename_ip_keys raw w = (Return raw, w)
  \/ (exists ip a c,
        raw !! "ip" = Some (JDict ip) /\ ip !! "as" = Some a /\
        truthy a = true /\ ip !! "class" = Some c /\
        rename_ip_keys raw w
        = (Return (<["ip" := JDict (delete "class" (delete "as"
                      (<["_class" := c]> (<["_as" := a]> ip))))]> raw), w))
  \/ (exists e, rename_ip_keys raw w = (Raise e, w)).
Proof.
  destruct (raw !! "ip") as [v|] eqn:Hip.
  2:{ left. apply rename_ip_keys_no_ip. exact Hip. }
  destruct v as [| | | | |ip];
    try (right; right; eexists;
         apply (rename_ip_keys_not_dict raw _ w Hip); congruence).
  destruct (ip !! "as") as [a|] eqn:Has.
  2:{ left. apply (rename_ip_keys_falsy raw ip w Hip).
      rewrite Has. reflexivity. }
  destruct (truthy a) eqn:Ha.
  2:{ left. apply (rename_ip_keys_falsy raw ip w Hip).
      rewrite Has. exact Ha. }
  destruct (ip !! "class") as [c|] eqn:Hclass.
  - right. left. exists ip, a, c. repeat split; try assumption.
    apply rename_ip_keys_renames; assumption.
  - right. right. eexists.
    apply (rename_ip_keys_missing_class raw ip a w); assumption.
Qed.

(** The renaming is a function of the payload alone. *)
Lemma rename_ip_keys_pure (raw : gmap string json) :
  exists o, forall w, rename_ip_keys raw w = (o, w).
Proof.
  destruct (raw !! "ip") as [v|] eqn:Hip.
  2:{ eexists. intros w. apply rename_ip_keys_no_ip. exact Hip. }
  destruct v as [| | | | |ip];
    try (eexists; intros w;
         apply (rename_ip_keys_not_dict raw _ w Hip); congruence).
  destruct (ip !! "as") as [a|] eqn:Has.
  2:{ eexists. intros w. apply (rename_ip_keys_falsy raw ip w Hip).
      rewrite Has. reflexivity. }
  destruct (truthy a) eqn:Ha.
  2:{ eexists. intros w. apply (rename_ip_keys_falsy raw ip w Hip).
      rewrite Has. exact Ha. }
  destruct (ip !! "class") as [c|] eqn:Hclass.
  - eexists. intros w. apply (rename_ip_keys_renames raw ip a c); assumption.
  - eexists. intros w.
    apply (rename_ip_keys_missing_class raw ip a w); assumption.
Qed.

(** X4. Whatever the payload, the renaming touches nothing but the dict
    under ["ip"]: when it returns, every other top-level key of the payload
    has the value it had, the payload has the same keys, and the world is
    as it was; when it raises, the world is as it was too. *)
Theorem rename_ip_keys_frame (raw : gmap string json) (w : world) :
  (rename_ip_keys raw w).2 = w
  /\ (forall r, (rename_ip_keys raw w).1 = Return r ->
        dom r = dom raw /\ forall k, k <> "ip" -> r !! k = raw !! k).
Proof.
  destruct (rename_ip_keys_cases raw w)
    as [Hsame | [(ip & a & c & Hip & _ & _ & _ & Hren) | [e He]]].
  - rewrite Hsame. split; [reflexivity | ].
    intros r [= <-]. split; reflexivity.
  - rewrite Hren. split; [reflexivity | ].
    intros r [= <-]. split.
    + rewrite dom_insert_L.
      assert (Hin : "ip" ∈ dom raw) by (apply elem_of_dom; eauto).
      set_solver.
    + intros k Hk. apply lookup_insert_ne. congruence.
  - rewrite He. split; [reflexivity | ]. intros r Hr. discriminate Hr.
Qed.

(** X5. The renaming is idempotent: applied to a payload it has returned,
    it returns that payload unchanged. *)
Theorem rename_ip_keys_idempotent (raw r : gmap string json) (w : world) :
  (rename_ip_keys raw w).1 = Return r ->
  rename_ip_keys r w = (Return r, w).
Proof.
  destruct (rename_ip_keys_cases raw w)
    as [Hsame | [(ip & a & c & Hip & _ & _ & _ & Hren) | [e He]]].
  - rewrite Hsame. intros [= <-]. exact Hsame.
  - rewrite Hren. intros [= <-].
    eapply rename_ip_keys_falsy.
    + apply lookup_insert_eq.
    + rewrite lookup_delete_ne by discriminate.
      rewrite lookup_delete_eq. reflexivity.
  - rewrite He. intros Hr. discriminate Hr.
Qed.

Lemma rename_ip_keys_idempotent_witness :
  let renamed : gmap string json :=
    {["ip" := JDict {["valid" := JBool true;
                      "_as" := JStr "AS15169 Google LLC";
                      "_class" := JStr "A"; "ip" := JStr "8.8.8.8"]}]} in
  rename_ip_keys renamed initial_world = (Return renamed, initial_world).
Proof.
  intros renamed.
  apply (rename_ip_keys_idempotent public_ip_lookup renamed initial_world).
  vm_compute. reflexivity.
Defined.

(** X6. A payload whose ["ip"] entry is present and is not a dict (a JSON
    [null], a string, a list): [is_valid_data] raises [AttributeError] at
    line 100, after the call of the handler, and builds no typed result;
    the default [{}] of [response.get] only serves a missing key. *)
Theorem is_valid_data_ip_not_dict `{Remote}
  (self : client) (key : string) (data : json) (w : world)
  (raw : gmap string json) (v : json) :
  api_key self = Some key ->
  branch (net w) "private" "is_valid_data" (Some key) data = Return raw ->
  raw !! "ip" = Some v ->
  (forall d, v <> JDict d) ->
  is_valid_data self data w
  = (Raise (AttributeError "object has no attribute 'get'"),
     send (CapabilityCall "private" "is_valid_data" (Some key) data) w).
Proof.
  intros Hk Hb Hip Hv. unfold is_valid_data.
  rewrite (private_dispatch self key) by exact Hk. rewrite Hb.
  cbv [mbind M_bind].
  rewrite (rename_ip_keys_not_dict raw v) by assumption. reflexivity.
Qed.

Lemma is_valid_data_ip_not_dict_witness :
  let R := sample_remote confirm_all (Return null_ip_lookup) in
  (is_valid_data (client_of bob) (JDict {["email" := JStr "a@example.com"]})
     initial_world).1
  = Raise (AttributeError "object has no attribute 'get'").
Proof.
  intros R.
  rewrite (is_valid_data_ip_not_dict (H := R) (client_of bob) "key-b"
             (JDict {["email" := JStr "a@example.com"]}) initial_world
             null_ip_lookup JNull eq_refl eq_refl);
    [reflexivity | vm_compute; reflexivity | intros d Hd; discriminate Hd].
Defined.

(** ** Construction *)

(** X7. An accepted answer whose body is not a JSON object is not among
    the failures line 71 catches: with a truthy API key and an unfilled
    cache, the [AttributeError] of [data.get] leaves [__init__], so the
    construction raises; the request was sent, nothing is logged and the
    cache is as it was. *)
Theorem init_raises_on_non_object `{Remote}
  (cfg : config) (w : world) (status : Z) (text : string) (body : json) :
  str_truthy (cfg_api_key cfg) = true ->
  cached w = false ->
  requests_post (net (send UpdateCheck w)) (tokens_url (client_of cfg))
    (tokens_body (client_of cfg))
  = Responded status text body ->
  in_range 400 600 status = false ->
  (forall d, body <> JDict d) ->
  __init__ cfg w
  = (Raise (AttributeError "object has no attribute 'get'"),
     send (tokens_request (client_of cfg)) (send UpdateCheck w)).
Proof.
  intros Hk Hc Hr Hs Hb. rewrite init_unfold, Hk.
  rewrite (initialize_tokens_malformed (client_of cfg) (send UpdateCheck w)
             status text body); try assumption; [reflexivity | ].
  apply has_tokens_iff. right. exact Hk.
Qed.

Lemma init_raises_on_non_object_witness :
  let R := sample_remote list_answer no_payload in
  __init__ bob initial_world
  = (Raise (AttributeError "object has no attribute 'get'"),
     World JNull false [UpdateCheck; tokens_request (client_of bob)] [] []).
Proof.
  intros R.
  rewrite (init_raises_on_non_object (H := R) bob initial_world 200 ""
             (JList []));
    [reflexivity | reflexivity | reflexivity | reflexivity | reflexivity
    | intros d Hd; discriminate Hd].
Defined.

(** X8. Line 46 tests the truth value of the API key and line 49 tests
    [is None]: a configuration whose API key is the empty string is
    constructed without any verification, whatever its root key, and its
    private capabilities are still dispatched, with the empty key and with
    no log record. *)
Theorem empty_api_key_is_dispatched `{Remote}
  (cfg : config) (data : json) (fields : gmap string json) (w : world) :
  cfg_api_key cfg = Some "" ->
  let self := client_of cfg in
  __init__ cfg w = (Return self, send UpdateCheck w)
  /\ (is_valid_data self data w).2
     = send (CapabilityCall "private" "is_valid_data" (Some "") data) w
  /\ (get_random self fields w).2
     = send (CapabilityCall "private" "get_random" (Some "") (JDict fields)) w.
Proof.
  intros Hk self.
  assert (Hself : api_key self = Some "") by exact Hk.
  split; [ | split ].
  - rewrite init_unfold, Hk. reflexivity.
  - unfold is_valid_data. rewrite (private_dispatch self "") by exact Hself.
    destruct (branch _ _ _ _ _) as [raw | e]; [ | reflexivity ].
    cbv [mbind M_bind].
    destruct (rename_ip_keys_pure raw) as [[r | e] Hpure]; rewrite Hpure;
      [ | reflexivity ].
    unfold construct. destruct (validate DataVerifierResponse r); reflexivity.
  - unfold get_random. rewrite (private_dispatch self "") by exact Hself.
    destruct (branch _ _ _ _ _) as [raw | e]; [ | reflexivity ].
    unfold construct. destruct (validate DataVerifierResponse raw); reflexivity.
Qed.

Lemma empty_api_key_is_dispatched_witness :
  let R := sample_remote reject_private (Return random_payload) in
  __init__ empty_key initial_world
  = (Return (client_of empty_key), World JNull false [UpdateCheck] [] [])
  /\ (get_random (client_of empty_key) {["min" := JNum 1]} initial_world).2
     = World JNull false
         [CapabilityCall "private" "get_random" (Some "")
            (JDict {["min" := JNum 1]})] [] [].
Proof.
  intros R.
  destruct (empty_api_key_is_dispatched (H := R) empty_key JNull
              {["min" := JNum 1]} initial_world eq_refl)
    as (Hinit & _ & Hrandom).
  split; [exact Hinit | exact Hrandom].
Defined.

(** ** Invariants of a process *)

Lemma cache_shape_same_cache (w w' : world) :
  same_cache w w' -> cache_shape w -> cache_shape w'.
Proof.
  intros (H1 & H2 & H3) Hs. unfold cache_shape. rewrite H1, H2, H3. exact Hs.
Qed.

Lemma cache_shape_cached (w : world) :
  cache_shape w -> cached w = false ->
  tokens_response w = JNull /\ tokens_verified w = false.
Proof.
  intros [Hs | (Hv & _ & d & Hd & Ht)] Hc; [exact Hs | ].
  unfold cached in Hc. rewrite Hd, Hv in Hc.
  apply orb_true_iff in Ht as [Ht | Ht];
    rewrite (truthy_lookup d _ Ht) in Hc; discriminate Hc.
Qed.

Section Invariants.
Context `{Remote}.

Lemma initialize_tokens_shape (self : client) (w : world) :
  cache_shape w -> cache_shape (initialize_tokens self w).2.
Proof.
  intros Hshape. destruct (cached w) eqn:Hc.
  { rewrite initialize_tokens_cached by exact Hc.
    apply (cache_shape_same_cache w); [repeat split | exact Hshape]. }
  destruct (cache_shape_cached w Hshape Hc) as [Hnull Hfalse].
  destruct (has_tokens self) eqn:Ht.
  2:{ rewrite initialize_tokens_no_tokens by assumption. exact Hshape. }
  destruct (answer_cases self
              (requests_post (net w) (tokens_url self) (tokens_body self)))
    as [[e Hf] | [(st & txt & d & Hr & Hs & Hd) | (st & txt & b & Hr & Hs & Hb)]].
  - rewrite (initialize_tokens_failure self w e) by assumption.
    left. split; assumption.
  - rewrite (initialize_tokens_success self w st txt d) by assumption.
    right. split; [reflexivity | split].
    + unfold verification_calls. simpl. rewrite List.filter_app. simpl.
      intros Hnil. apply app_eq_nil in Hnil as [_ Hnil]. discriminate Hnil.
    + exists d. split; [reflexivity | ].
      destruct Hd as [Hroot Hapi].
      apply has_tokens_iff in Ht as [Ht | Ht].
      * rewrite (Hroot Ht). reflexivity.
      * rewrite (Hapi Ht). apply orb_true_r.
  - rewrite (initialize_tokens_malformed self w st txt b) by assumption.
    left. split; assumption.
Qed.

Lemma run_op_same_cache (o : op) (w : world) :
  is_capability o = true -> same_cache w (run_op o w).
Proof.
  destruct o; simpl; intros Hcap; try discriminate Hcap.
  - apply keeps_cache_is_valid_data.
  - apply keeps_cache_send_email.
  - apply keeps_cache_get_random.
  - apply keeps_cache_public.
  - apply keeps_cache_public.
  - apply keeps_cache_public.
  - apply keeps_cache_public.
Qed.

Lemma run_op_shape (o : op) (w : world) :
  cache_shape w -> cache_shape (run_op o w).
Proof.
  intros Hshape. destruct (is_capability o) eqn:Hcap.
  { apply (cache_shape_same_cache w);
      [apply run_op_same_cache; exact Hcap | exact Hshape]. }
  destruct o; try discriminate Hcap; simpl.
  - rewrite init_world.
    assert (Hu : cache_shape (send UpdateCheck w)).
    { apply (cache_shape_same_cache w);
        [apply same_cache_send; reflexivity | exact Hshape]. }
    destruct (str_truthy (cfg_api_key cfg)); [ | exact Hu ].
    apply initialize_tokens_shape. exact Hu.
  - apply initialize_tokens_shape. exact Hshape.
Qed.

End Invariants.

(** X9. In every world a process can reach the two class attributes go
    together: either nothing is cached ([tokens_response] is [None] and
    [tokens_verified] is [False]) or the verdict is cached with a JSON
    object that confirms ["root"] or ["private"], and the process has made
    at least one verification call. *)
Theorem reachable_cache_shape `{Remote} (w : world) :
  reachable w -> cache_shape w.
Proof.
  unfold reachable. intros Hsteps.
  assert (Hgen : forall w0 w1, steps w0 w1 -> cache_shape w0 -> cache_shape w1).
  { intros w0 w1 Hs. induction Hs as [ | w0 w1 o Hs IH]; intros H0.
    - exact H0.
    - apply run_op_shape, IH, H0. }
  apply (Hgen initial_world w Hsteps). left. split; reflexivity.
Qed.

Lemma reachable_cache_shape_witness :
  let R := sample_remote confirm_all no_payload in
  cache_shape
    (run_op (OpGetRandom (client_of bob) ∅)
       (run_op (OpInit alice) initial_world))
  /\ tokens_verified
       (run_op (OpGetRandom (client_of bob) ∅)
          (run_op (OpInit alice) initial_world)) = true.
Proof.
  intros R. split.
  - apply (reachable_cache_shape (H := R)).
    apply steps_op, steps_op, steps_refl.
  - vm_compute. reflexivity.
Defined.

(** X10. The verification calls of an operation do not depend on what the
    server answers: on a filled cache no operation makes one; on an
    unfilled cache a construction with a truthy API key and a call of
    [initialize_tokens] by a client that holds a credential make exactly
    the one request of their client, and every other operation (each
    capability, a construction without API key) makes none. *)
Theorem operation_verification_calls `{Remote} (o : op) (w : world) :
  verification_calls (run_op o w)
  = (verification_calls w ++ (if cached w then [] else verification_of o))%list.
Proof.
  destruct (cached w) eqn:Hc.
  { rewrite app_nil_r. apply (run_op_cached o w Hc). }
  destruct (is_capability o) eqn:Hcap.
  { destruct (run_op_same_cache o w Hcap) as (_ & _ & Hcalls).
    rewrite Hcalls. destruct o; try discriminate Hcap; simpl;
      rewrite app_nil_r; reflexivity. }
  assert (Hinit : forall self w0,
            cached w0 = false ->
            verification_calls w0 = verification_calls w ->
            verification_calls (initialize_tokens self w0).2
            = (verification_calls w
               ++ (if has_tokens self then [tokens_request self] else []))%list).
  { intros self w0 Hc0 Hw0. unfold verification_calls at 1.
    rewrite (initialize_tokens_net self w0 Hc0), List.filter_app.
    fold (verification_calls w0). rewrite Hw0.
    destruct (has_tokens self); reflexivity. }
  destruct o; try discriminate Hcap; simpl.
  - rewrite init_world.
    assert (Hu : same_cache w (send UpdateCheck w))
      by (apply same_cache_send; reflexivity).
    destruct (str_truthy (cfg_api_key cfg)) eqn:Hk.
    + rewrite (Hinit (client_of cfg) (send UpdateCheck w)).
      * replace (has_tokens (client_of cfg)) with true; [reflexivity | ].
        symmetry. apply has_tokens_iff. right. exact Hk.
      * rewrite (cached_same_cache _ _ Hu). exact Hc.
      * apply Hu.
    + rewrite app_nil_r. apply Hu.
  - apply Hinit; [exact Hc | reflexivity].
Qed.

(** ** The capabilities and the cache *)

Lemma cache_blind_ret {A : Type} (a : A) : cache_blind (mret a).
Proof. intros r v w. reflexivity. Qed.

Lemma cache_blind_raise {A : Type} (e : exn) : cache_blind (@raise A e).
Proof. intros r v w. reflexivity. Qed.

Lemma cache_blind_bind {A B : Type} (m : M A) (f : A -> M B) :
  cache_blind m -> (forall a, cache_blind (f a)) -> cache_blind (m ≫= f).
Proof.
  intros Hm Hf r v w. cbv [mbind M_bind]. rewrite (Hm r v w).
  destruct (m w) as [[a | e] w1]; simpl; [apply Hf | reflexivity].
Qed.

Lemma cache_blind_rename_ip_keys (raw : gmap string json) :
  cache_blind (rename_ip_keys raw).
Proof.
  intros r v w. destruct (rename_ip_keys_pure raw) as [o Ho].
  rewrite !Ho. reflexivity.
Qed.

Section CacheBlind.
Context `{Remote}.

Lemma cache_blind_construct (c : model_class) (kwargs : gmap string json) :
  cache_blind (construct c kwargs).
Proof.
  intros r v w. unfold construct. destruct (validate c kwargs); reflexivity.
Qed.

Lemma cache_blind_dispatch {A : Type} (self : client) (m fn : string)
  (args : json) (k : gmap string json -> M A) :
  (forall raw, cache_blind (k raw)) ->
  cache_blind (f ← _get_function self m fn; response ← py_call f args;
               k response).
Proof.
  intros Hk. unfold _get_function.
  destruct ((m =? "private")%string
            && match api_key self with None => true | Some _ => false end).
  - intros r v w. reflexivity.
  - assert (Hcall : forall key, cache_blind (branch_call m fn key args ≫= k)).
    { intros key. apply cache_blind_bind; [ | exact Hk ].
      intros r v w. reflexivity. }
    destruct (m =? "private")%string; intros r v w;
      cbv [mbind M_bind mret M_ret py_call]; apply Hcall.
Qed.

End CacheBlind.

(** X11. No capability reads the token cache: run on a world that differs
    only in the cache, each of the seven methods has the same outcome, sends
    the same requests and writes the same records, and leaves that cache as
    it is.  A private capability is dispatched the same whether the
    verification of its key succeeded, failed or never took place. *)
Theorem capabilities_ignore_cache `{Remote}
  (self : client) (data : json) (fields : gmap string json) :
  cache_blind (is_valid_data self data)
  /\ cache_blind (send_email self fields)
  /\ cache_blind (get_random self fields)
  /\ cache_blind (get_prayer_times self data)
  /\ cache_blind (satinizer self data)
  /\ cache_blind (is_valid_pwd self data)
  /\ cache_blind (new_url_encrypt self data).
Proof.
  repeat split.
  - apply cache_blind_dispatch. intros raw.
    apply cache_blind_bind;
      [apply cache_blind_rename_ip_keys | intros; apply cache_blind_construct].
  - unfold send_email.
    destruct (negb (truthy (server_email_config self))
              && negb (str_truthy (root_api_key self))).
    + intros r v w. reflexivity.
    + apply cache_blind_dispatch. intros raw.
      apply cache_blind_bind;
        [apply cache_blind_construct | intros; apply cache_blind_ret].
  - apply cache_blind_dispatch. intros raw. apply cache_blind_construct.
  - apply cache_blind_dispatch. intros raw. apply cache_blind_construct.
  - apply cache_blind_dispatch. intros raw. apply cache_blind_construct.
  - apply cache_blind_dispatch. intros raw. apply cache_blind_construct.
  - apply cache_blind_dispatch. intros raw. apply cache_blind_construct.
Qed.

(** ** What construction can raise *)

(** X12. A construction never raises a [RequestException] or an
    [AuthenticationError], nor anything else but the [AttributeError] of
    line 66 or 67: it returns the instance, or it raises that error, and
    then the API key is truthy, the cache was unfilled, the server answered
    with a status [raise_for_status] accepts and a body that is not a JSON
    object, and the cache is as it was. *)
Theorem init_outcomes `{Remote} (cfg : config) (w : world) :
  (__init__ cfg w).1 = Return (client_of cfg)
  \/ ((__init__ cfg w).1
      = Raise (AttributeError "object has no attribute 'get'")
      /\ str_truthy (cfg_api_key cfg) = true
      /\ cached w = false
      /\ tokens_response (__init__ cfg w).2 = tokens_response w
      /\ tokens_verified (__init__ cfg w).2 = tokens_verified w
      /\ exists status text body,
           requests_post (net (send UpdateCheck w))
             (tokens_url (client_of cfg)) (tokens_body (client_of cfg))
           = Responded status text body
           /\ in_range 400 600 status = false
           /\ forall d, body <> JDict d).
Proof.
  rewrite init_unfold.
  destruct (str_truthy (cfg_api_key cfg)) eqn:Hk; [ | left; reflexivity ].
  set (self := client_of cfg). set (w0 := send UpdateCheck w).
  destruct (cached w0) eqn:Hc.
  { rewrite initialize_tokens_cached by exact Hc. left. reflexivity. }
  destruct (has_tokens self) eqn:Ht.
  2:{ rewrite initialize_tokens_no_tokens by assumption. left. reflexivity. }
  destruct (answer_cases self
              (requests_post (net w0) (tokens_url self) (tokens_body self)))
    as [[e Hf] | [(st & txt & d & Hr & Hs & Hd) | (st & txt & b & Hr & Hs & Hb)]].
  - rewrite (initialize_tokens_failure self w0 e) by assumption.
    left. reflexivity.
  - rewrite (initialize_tokens_success self w0 st txt d) by assumption.
    left. reflexivity.
  - rewrite (initialize_tokens_malformed self w0 st txt b) by assumption.
    right. repeat split; try reflexivity.
    + exact Hc.
    + exists st, txt, b. repeat split; assumption.
Qed.
